(** * tex2typst: the two table extractors under [tools/]

    [tools/make-shorthand-map.py] and [tools/make-symbol-map.py] read a
    parsed HTML page, walk the list items of a [<ul class="symbol-grid">]
    and print one line of a source table per entry.

    The embedding follows the two scripts statement by statement.  What
    they call but do not define comes from the Python runtime and from
    BeautifulSoup: the parsed tree is a datatype here, [find_all] is a
    traversal of it, [html.unescape] follows CPython's [Lib/html/__init__.py],
    [sorted] is a stable insertion sort, and the parts that are tables or
    Unicode-wide ([str.lower], [int], the entity tables, the markup parser)
    are the fields of the class [PyRuntime].  A computation returns what
    it printed together with its value or the exception that ended it, so
    that the output of a run that fails half-way is part of the result. *)

From Stdlib Require Import ZArith NArith List Ascii String Lia Permutation Sorted.
From stdpp Require Import base option list gmap.

Set Warnings "-register-all".

(** ** Python strings

    A Python [str] is a sequence of Unicode code points; a code point is
    kept as its number, so that slicing counts characters and comparison
    is the comparison of code points, as in Python. *)

Abbreviation str := (list N).

(** An ASCII literal of the scripts as a [str]. *)
Definition lit (s : string) : str := N_of_ascii <$> list_ascii_of_string s.
Arguments lit s%_string.

(** [a < b] on [str]: lexicographic on code points. *)
Fixpoint str_ltb (a b : str) : bool :=
  match a, b with
  | _, [] => false
  | [], _ :: _ => true
  | x :: a', y :: b' =>
      if (x <? y)%N then true
      else if (x =? y)%N then str_ltb a' b'
      else false
  end.

(** [a <= b] on [str]. *)
Definition str_leb (a b : str) : bool := negb (str_ltb b a).

(** ** The parsed page

    A BeautifulSoup tree.  A tag has a name, the tokens of its [class]
    attribute (BeautifulSoup keeps [class] as a list), its other
    attributes as a dictionary from name to value, and its children.
    Whatever is not a tag (text, comments, the doctype) is [Text]. *)

Inductive node : Type :=
| Tag (name : str) (cls : list str) (attrs : gmap str str) (children : list node)
| Text (s : str).

Definition tag_attrs (n : node) : gmap str str :=
  match n with
  | Tag _ _ a _ => a
  | Text _ => ∅
  end.

(** Every node below [n], in document order (a tag before its content). *)
Fixpoint descendants (n : node) : list node :=
  match n with
  | Tag _ _ _ ch => flat_map (fun c => c :: descendants c) ch
  | Text _ => []
  end.

(** [tag.name == name], and with [class_=c] also [c] among the tokens
    of the [class] attribute ([c] holds no white space in the scripts). *)
Definition tag_matches (name : str) (class_ : option str) (n : node) : bool :=
  match n with
  | Tag nm cs _ _ =>
      bool_decide (nm = name)
      && match class_ with
         | Some c => bool_decide (c ∈ cs)
         | None => true
         end
  | Text _ => false
  end.

(** [n.find_all(name, class_=...)]: all matching tags below [n], in
    document order. *)
Definition find_all (name : str) (class_ : option str) (n : node) : list node :=
  List.filter (tag_matches name class_) (descendants n).

(** [n.find(name, class_=...)]: the first match, or [None]. *)
Definition find (name : str) (class_ : option str) (n : node) : option node :=
  head (find_all name class_ n).

(** ** What the runtime provides *)

Class PyRuntime := {
  (** [str.lower] *)
  str_lower : str -> str;
  (** [int(s)] for a [str]; [None] where Python raises [ValueError] *)
  int_of_str : str -> option Z;
  (** [sys.get_int_max_str_digits()]: the longest run of decimal digits
      that [int] converts, [0] when there is no limit (4300 unless set
      otherwise; [0] also stands for a Python without the limit) *)
  int_max_str_digits : nat;
  (** [html.entities.html5], the table of named character references *)
  html5 : str -> option str;
  (** [html._invalid_charrefs] *)
  invalid_charrefs : N -> option str;
  (** membership in [html._invalid_codepoints] *)
  invalid_codepoints : N -> bool;
  (** [BeautifulSoup(html_text, 'html.parser')] *)
  BeautifulSoup : str -> node
}.

(** ** Exceptions and standard output

    A computation yields the lines it has printed and either a value or
    the exception that ended it.  No script catches an exception, so a
    raised exception ends the run. *)

Inductive exn : Type :=
| IndexError
| KeyError (key : str)
| ValueError
| AttributeError.

Inductive outcome (A : Type) : Type :=
| Returned (a : A)
| Raised (e : exn).
Arguments Returned {A} a.
Arguments Raised {A} e.

Definition Py (A : Type) : Type := (list str * outcome A)%type.

Definition stdout {A} (m : Py A) : list str := fst m.
Definition result {A} (m : Py A) : outcome A := snd m.

Definition raise {A} (e : exn) : Py A := ([], Raised e).

(** [print(s)] *)
Definition print (s : str) : Py unit := ([s], Returned tt).

#[global] Instance Py_ret : MRet Py := fun A a => ([], Returned a).

#[global] Instance Py_bind : MBind Py := fun A B f m =>
  match m with
  | (out, Returned a) => let '(out', r) := f a in (out ++ out', r)
  | (out, Raised e) => (out, Raised e)
  end.

(** [for x in l: body(x)] *)
Fixpoint for_each {A} (l : list A) (body : A -> Py unit) : Py unit :=
  match l with
  | [] => mret tt
  | x :: l' => body x ≫= fun _ => for_each l' body
  end.

(** [for x in l: s = body(s, x)], for a loop that updates a variable *)
Fixpoint for_fold {A S} (l : list A) (body : S -> A -> Py S) (s : S) : Py S :=
  match l with
  | [] => mret s
  | x :: l' => body s x ≫= for_fold l' body
  end.

(** [[f(x) for x in l]] *)
Fixpoint comprehension {A B} (l : list A) (f : A -> Py B) : Py (list B) :=
  match l with
  | [] => mret []
  | x :: l' => y ← f x; ys ← comprehension l' f; mret (y :: ys)
  end.

(** The text a run leaves on standard output: [print] ends each line
    with a newline. *)
Definition stdout_text (lines : list str) : str :=
  concat ((fun l => l ++ [10%N]) <$> lines).

(** [l[i]] for [i >= 0] *)
Definition list_getitem {A} (l : list A) (i : nat) : Py A :=
  match l !! i with
  | Some x => mret x
  | None => raise IndexError
  end.

(** [tag[key]] *)
Definition tag_getitem (t : node) (key : str) : Py str :=
  match tag_attrs t !! key with
  | Some v => mret v
  | None => raise (KeyError key)
  end.

(** [tag.get(key, None)] *)
Definition tag_get (t : node) (key : str) : option str := tag_attrs t !! key.

(** [x.find_all(name)] where [x] is the value of a [find]: calling it on
    [None] raises [AttributeError]. *)
Definition find_all_of (x : option node) (name : str) : Py (list node) :=
  match x with
  | Some n => mret (find_all name None n)
  | None => raise AttributeError
  end.

(** ** [html.unescape]

    CPython's [Lib/html/__init__.py]:
    [_charref = re.compile(r'&(#[0-9]+;?|#[xX][0-9a-fA-F]+;?|[^\t\n\f <&#;]{1,32};?)')]
    and [unescape(s)] returns [s] when it holds no ['&'], and
    [_charref.sub(_replace_charref, s)] otherwise.  [_replace_charref]
    calls [int] on the digits of a numeric reference, and [int] raises
    [ValueError] on a decimal literal longer than the limit of the
    runtime; the exception leaves [html.unescape], which is therefore
    partial: [None] stands for this [ValueError]. *)

Definition is_digit (c : N) : bool := ((48 <=? c) && (c <=? 57))%N.

Definition is_hexdigit (c : N) : bool :=
  is_digit c || ((65 <=? c) && (c <=? 70))%N || ((97 <=? c) && (c <=? 102))%N.

(** The class [[^\t\n\f <&#;]]. *)
Definition is_name_char (c : N) : bool :=
  negb (bool_decide (c ∈ [9; 10; 12; 32; 60; 38; 35; 59]%N)).

Fixpoint take_while (p : N -> bool) (s : str) : str :=
  match s with
  | c :: s' => if p c then c :: take_while p s' else []
  | [] => []
  end.

(** The [;?] that ends each alternative. *)
Definition opt_semicolon (s : str) : str :=
  match s with
  | 59%N :: _ => [59%N]
  | _ => []
  end.

(** A greedy run of [p], at most [bound] long and not empty, then [;?]. *)
Definition run_then_semicolon (p : N -> bool) (bound : option nat) (s : str)
  : option str :=
  let r := take_while p s in
  let r := match bound with Some n => take n r | None => r end in
  match r with
  | [] => None
  | _ => Some (r ++ opt_semicolon (drop (length r) s))
  end.

(** Group 1 of [_charref] matched right after an ['&']; [s] is the text
    that follows the ['&']. *)
Definition charref_match (s : str) : option str :=
  match s with
  | 35%N :: t =>
      match run_then_semicolon is_digit None t with
      | Some g => Some (35%N :: g)
      | None =>
          match t with
          | x :: t' =>
              if bool_decide (x ∈ [120; 88]%N) then
                (fun g => 35%N :: x :: g) <$> run_then_semicolon is_hexdigit None t'
              else None
          | [] => None
          end
      end
  | _ => run_then_semicolon is_name_char (Some 32) s
  end.

(** [s.rstrip(';')] *)
Fixpoint rstrip_semicolon (s : str) : str :=
  match s with
  | [] => []
  | c :: s' =>
      match rstrip_semicolon s' with
      | [] => if (c =? 59)%N then [] else [c]
      | r => c :: r
      end
  end.

Definition digit_value (c : N) : N :=
  if is_digit c then (c - 48)%N
  else if (97 <=? c)%N then (c - 87)%N
  else (c - 55)%N.

(** [int(s, base)] on a run of digits of that base. *)
Definition int_digits (base : N) (s : str) : N :=
  fold_left (fun acc c => (acc * base + digit_value c)%N) s 0%N.

Section Unescape.
Context {rt : PyRuntime}.

(** The numeric branch of [_replace_charref]. *)
Definition numeric_charref (num : N) : str :=
  match invalid_charrefs num with
  | Some r => r
  | None =>
      if ((55296 <=? num) && (num <=? 57343) || (1114111 <? num))%N then [65533%N]
      else if invalid_codepoints num then []
      else [num]
  end.

(** [for x in range(len(s)-1, 1, -1): if s[:x] in _html5: ...], entered
    at [x]. *)
Fixpoint longest_name (s : str) (x : nat) : option str :=
  match x with
  | S x' =>
      if (x <? 2)%nat then None
      else match html5 (take x s) with
           | Some r => Some (r ++ drop x s)
           | None => longest_name s x'
           end
  | O => None
  end.

(** [int(s)] on a run of decimal digits: CPython's [long_from_string_base]
    refuses more than [int_max_str_digits] digits (the check is made
    above 640 digits only), bases that are powers of two are exempt. *)
Definition int_decimal (digits : str) : option N :=
  if ((640 <? length digits) && (0 <? int_max_str_digits)
      && (int_max_str_digits <? length digits))%nat
  then None
  else Some (int_digits 10 digits).

(** [_replace_charref], on group 1 of the match. *)
Definition replace_charref (s : str) : option str :=
  match s with
  | 35%N :: t =>
      match t with
      | x :: t' =>
          if bool_decide (x ∈ [120; 88]%N)
          then Some (numeric_charref (int_digits 16 (rstrip_semicolon t')))
          else numeric_charref <$> int_decimal (rstrip_semicolon t)
      | [] => Some (numeric_charref 0)
      end
  | _ =>
      match html5 s with
      | Some r => Some r
      | None =>
          match longest_name s (length s - 1) with
          | Some r => Some r
          | None => Some (38%N :: s)
          end
      end
  end.

(** [_charref.sub(_replace_charref, s)]: [skip] counts the characters
    of the current match that are still to be passed over. *)
Fixpoint charref_sub (skip : nat) (s : str) : option str :=
  match s with
  | [] => Some []
  | c :: t =>
      match skip with
      | S k => charref_sub k t
      | O =>
          if (c =? 38)%N then
            match charref_match t with
            | Some g =>
                r ← replace_charref g;
                rest ← charref_sub (length g) t;
                Some (r ++ rest)
            | None => (fun rest => c :: rest) <$> charref_sub 0 t
            end
          else (fun rest => c :: rest) <$> charref_sub 0 t
      end
  end.

(** [html.unescape(s)]; [None] where it raises [ValueError]. *)
Definition html_unescape (s : str) : option str :=
  if bool_decide (38%N ∈ s) then charref_sub 0 s else Some s.

(** The call [html.unescape(s)] in a script. *)
Definition unescape (s : str) : Py str :=
  match html_unescape s with
  | Some r => mret r
  | None => raise ValueError
  end.
End Unescape.

(** ** [tools/make-shorthand-map.py] *)

Section Shorthand.
Context {rt : PyRuntime}.

(** The body of [for li in li_list]. *)
Definition shorthand_body (li : node) : Py unit :=
  id ← tag_getitem li (lit "id");
  let typst := drop 7 id in
  raw ← tag_getitem li (lit "data-math-shorthand");
  shorthand ← unescape raw;
  print (lit "['" ++ typst ++ lit "', '" ++ shorthand ++ lit "'],").

(** The script from the parsed page on. *)
Definition shorthand_run (soup : node) : Py unit :=
  let ul_list := find_all (lit "ul") (Some (lit "symbol-grid")) soup in
  ul_shorthands_math ← list_getitem ul_list 1;
  let li_list := find_all (lit "li") None ul_shorthands_math in
  for_each li_list shorthand_body.

(** The script from the fetched and decoded text on. *)
Definition shorthand_main (html_text : str) : Py unit :=
  shorthand_run (BeautifulSoup html_text).
End Shorthand.

(** ** Python dictionaries and [sorted]

    A [dict] keeps its keys in insertion order, and [symbol_map.keys()]
    lists them in that order, which a stable sort then preserves among
    keys that compare equal: the dictionary is an association list. *)

Abbreviation dict := (list (str * str)).

(** [k in d] *)
Definition dict_contains (k : str) (d : dict) : bool := bool_decide (k ∈ d.*1).

(** [d[k] = v]: a new key goes last, a known key keeps its place. *)
Fixpoint dict_setitem (k v : str) (d : dict) : dict :=
  match d with
  | [] => [(k, v)]
  | (k', v') :: d' =>
      if bool_decide (k' = k) then (k, v) :: d' else (k', v') :: dict_setitem k v d'
  end.

Fixpoint dict_lookup (d : dict) (k : str) : option str :=
  match d with
  | [] => None
  | (k', v') :: d' => if bool_decide (k' = k) then Some v' else dict_lookup d' k
  end.

(** [d[k]] *)
Definition dict_getitem (d : dict) (k : str) : Py str :=
  match dict_lookup d k with
  | Some v => mret v
  | None => raise (KeyError k)
  end.

(** [list(d.keys())] *)
Definition dict_keys (d : dict) : list str := d.*1.

(** [sorted(l, key=key)]: Python's sort is stable and compares the keys
    with [<] only.  [x] is put before the first element whose key is not
    below its own, so that it stays ahead of the later elements with an
    equal key. *)
Section Sorted.
Context {A : Type} (key : A -> str).

Fixpoint sorted_insert (x : A) (l : list A) : list A :=
  match l with
  | [] => [x]
  | y :: l' =>
      if str_ltb (key y) (key x) then y :: sorted_insert x l' else x :: y :: l'
  end.

Fixpoint sorted (l : list A) : list A :=
  match l with
  | [] => []
  | x :: l' => sorted_insert x (sorted l')
  end.
End Sorted.

(** ** [tools/make-symbol-map.py] *)

Section Symbol.
Context {rt : PyRuntime}.

(** [int(s)] *)
Definition int (s : str) : Py Z :=
  match int_of_str s with
  | Some n => mret n
  | None => raise ValueError
  end.

(** The body of [for li in li_list], from [symbol_map] before the
    item to [symbol_map] after it. *)
Definition symbol_body (symbol_map : dict) (li : node) : Py dict :=
  let latex := tag_get li (lit "data-latex-name") in
  id ← tag_getitem li (lit "id");
  let typst := drop 7 id in
  codepoint ← tag_getitem li (lit "data-codepoint");
  unicode ← int codepoint;
  match latex with
  | Some latex =>
      if dict_contains latex symbol_map then mret symbol_map
      else mret (dict_setitem latex typst symbol_map)
  | None => mret symbol_map
  end.

(** The line printed for one pair of [sorted_symbol_map]. *)
Definition symbol_line (entry : str * str) : str :=
  let '(latex, typst) := entry in
  lit "    ['" ++ drop 1 latex ++ lit "', '" ++ typst ++ lit "'],".

(** [sorted_symbol_map] as the script builds it from [symbol_map]. *)
Definition sorted_symbol_map (symbol_map : dict) : Py (list (str * str)) :=
  let sorted_keys := sorted str_lower (dict_keys symbol_map) in
  comprehension sorted_keys
    (fun key => v ← dict_getitem symbol_map key; mret (key, v)).

(** Lines 11 to 32: the value of [sorted_symbol_map] for a parsed page. *)
Definition symbol_table (soup : node) : Py (list (str * str)) :=
  let ul := find (lit "ul") (Some (lit "symbol-grid")) soup in
  li_list ← find_all_of ul (lit "li");
  symbol_map ← for_fold li_list symbol_body [];
  sorted_symbol_map symbol_map.

(** The script from the parsed page on. *)
Definition symbol_run (soup : node) : Py unit :=
  entries ← symbol_table soup;
  for_each entries (fun entry => print (symbol_line entry)).

(** The script from the fetched and decoded text on. *)
Definition symbol_main (html_text : str) : Py unit :=
  symbol_run (BeautifulSoup html_text).
End Symbol.

(** ** An ASCII runtime and pages for the examples *)

Module Demo.

(** [str.lower] on ASCII letters. *)
Definition ascii_lower (s : str) : str :=
  (fun c => if ((65 <=? c) && (c <=? 90))%N then (c + 32)%N else c) <$> s.

(** [int] on a plain run of decimal digits. *)
Definition decimal_int (s : str) : option Z :=
  match s with
  | [] => None
  | _ => if forallb is_digit s then Some (Z.of_N (int_digits 10 s)) else None
  end.

(** The named references of XML, with their [html5] spellings. *)
Definition xml_entities (s : str) : option str :=
  dict_lookup
    [ (lit "amp;", lit "&"); (lit "lt;", lit "<"); (lit "gt;", lit ">");
      (lit "amp", lit "&"); (lit "lt", lit "<"); (lit "gt", lit ">") ] s.

(** An [<li>] with the given attributes and a [<button>] inside. *)
Definition li (attrs : list (str * str)) : node :=
  Tag (lit "li") [] (list_to_map attrs) [Tag (lit "button") [] ∅ [Text (lit "x")]].

Definition symbol_grid (items : list node) : node :=
  Tag (lit "ul") [lit "symbol-grid"] ∅ items.

Definition page (body : list node) : node :=
  Tag (lit "[document]") [] ∅ [Tag (lit "html") [] ∅ [Tag (lit "body") [] ∅ body]].

(** The page of the shorthand example: the second grid holds one item. *)
Definition arrow_item (shorthand : str) : node :=
  li [(lit "id", lit "symbol-arrow.r"); (lit "data-math-shorthand", shorthand)].

Definition arrow_page (shorthand : str) : node :=
  page [ symbol_grid [li [(lit "id", lit "symbol-dash.en");
                          (lit "data-markup-shorthand", lit "--")]];
         symbol_grid [arrow_item shorthand] ].

(** The same item with a [title], a text inside and no button, on a page
    whose first grid is empty. *)
Definition titled_arrow_item : node :=
  Tag (lit "li") [lit "wide"]
    (list_to_map [(lit "id", lit "symbol-arrow.r"); (lit "title", lit "arrow");
                  (lit "data-math-shorthand", lit "->")])
    [Text (lit "arrow")].

Definition plain_arrow_page : node :=
  page [symbol_grid []; symbol_grid [titled_arrow_item]].

(** A grid whose only item holds a list with an item of its own. *)
Definition nested_list : node := Tag (lit "ul") [] ∅ [arrow_item (lit "->")].

Definition nested_grid : node :=
  symbol_grid [Tag (lit "li") [] (list_to_map [(lit "id", lit "symbol-arrow")])
                 [nested_list]].

(** A decimal reference of 4301 digits, and a page whose second grid
    holds an item that prints, an item with this reference for shorthand,
    and an item without [id]. *)
Definition long_reference : str := lit "&#" ++ replicate 4301 49%N ++ lit ";".

Definition long_reference_page : node :=
  page [ symbol_grid [];
         symbol_grid [ arrow_item (lit "->");
                       li [(lit "id", lit "symbol-dots.h");
                           (lit "data-math-shorthand", long_reference)];
                       li [(lit "data-math-shorthand", lit "...")] ] ].

(** A page whose second grid has a second item without shorthand. *)
Definition broken_arrow_page : node :=
  page [ symbol_grid [];
         symbol_grid [arrow_item (lit "->"); li [(lit "id", lit "symbol-dots.h")]] ].

(** A list item of the symbol page. *)
Definition symbol_item (id latex codepoint : str) : node :=
  li [(lit "id", id); (lit "data-latex-name", latex); (lit "data-codepoint", codepoint)].

(** The page of the symbol example: two items share [\equiv]. *)
Definition equiv_items (with_codepoint : bool) : list node :=
  if with_codepoint then
    [ symbol_item (lit "symbol-equal") (lit "\equiv") (lit "8801");
      symbol_item (lit "symbol-equiv.triple") (lit "\equiv") (lit "8803") ]
  else
    [ li [(lit "id", lit "symbol-equal"); (lit "data-latex-name", lit "\equiv")];
      li [(lit "id", lit "symbol-equiv.triple"); (lit "data-latex-name", lit "\equiv")] ].

Definition equiv_page (with_codepoint : bool) : node :=
  page [symbol_grid (equiv_items with_codepoint)].

(** The page of the symbol example without its second item. *)
Definition equal_page : node :=
  page [symbol_grid [symbol_item (lit "symbol-equal") (lit "\equiv") (lit "8801")]].

(** Two items in both orders. *)
Definition beta_alpha_page : node :=
  page [symbol_grid
          [ symbol_item (lit "symbol-beta") (lit "\beta") (lit "946");
            symbol_item (lit "symbol-alpha") (lit "\alpha") (lit "945") ]].

Definition alpha_beta_page : node :=
  page [symbol_grid
          [ symbol_item (lit "symbol-alpha") (lit "\alpha") (lit "945");
            symbol_item (lit "symbol-beta") (lit "\beta") (lit "946") ]].

(** Two names that differ in their first character only. *)
Definition twin_page : node :=
  page [symbol_grid
          [ symbol_item (lit "symbol-equal") (lit "\equiv") (lit "8801");
            symbol_item (lit "symbol-equal") (lit "xequiv") (lit "8801") ]].

(** An item without a name. *)
Definition plus_item : node :=
  li [(lit "id", lit "symbol-plus"); (lit "data-codepoint", lit "43")].

Definition greek_page (unnamed : list node) : node :=
  page [symbol_grid
          ([symbol_item (lit "symbol-beta") (lit "\beta") (lit "946")]
           ++ unnamed
           ++ [symbol_item (lit "symbol-alpha") (lit "\alpha") (lit "945");
               symbol_item (lit "symbol-Alpha") (lit "\Alpha") (lit "913")])].

(** An item without [id] whose code point is not a number, and one
    with an [id]. *)
Definition anonymous_item : node := li [(lit "data-codepoint", lit "U+2261")].

Definition miscoded_item : node :=
  li [(lit "id", lit "symbol-equiv"); (lit "data-codepoint", lit "U+2261")].

(** The page of the symbol example with other code points. *)
Definition recoded_page : node :=
  page [symbol_grid
          [ symbol_item (lit "symbol-equal") (lit "\equiv") (lit "1");
            symbol_item (lit "symbol-equiv.triple") (lit "\equiv") (lit "2") ]].

(** The text of two of the pages, and the parser on these two texts
    (any other text stands for a page without lists here).  The parser
    decodes the character references of attribute values, so the element
    holds [->] for [-&gt;]. *)
Definition arrow_markup : str :=
  lit "<html><body><ul class='symbol-grid'><li id='symbol-dash.en' data-markup-shorthand='--'><button>x</button></li></ul><ul class='symbol-grid'><li id='symbol-arrow.r' data-math-shorthand='-&gt;'><button>x</button></li></ul></body></html>".

Definition equiv_markup : str :=
  lit "<html><body><ul class='symbol-grid'><li id='symbol-equal' data-latex-name='\equiv' data-codepoint='8801'><button>x</button></li><li id='symbol-equiv.triple' data-latex-name='\equiv' data-codepoint='8803'><button>x</button></li></ul></body></html>".

Definition parse (html_text : str) : node :=
  if bool_decide (html_text = arrow_markup) then arrow_page (lit "->")
  else if bool_decide (html_text = equiv_markup) then equiv_page true
  else page [].

#[local] Instance runtime : PyRuntime := {|
  str_lower := ascii_lower;
  int_of_str := decimal_int;
  int_max_str_digits := 4300;
  html5 := xml_entities;
  invalid_charrefs := fun _ => None;
  invalid_codepoints := fun _ => false;
  BeautifulSoup := parse
|}.

End Demo.

(** ** What one list item does to the symbol loop

    [item_error] is the exception that the three reads at the head of the
    loop body raise on an item, in the order of the script: [li['id']],
    [li['data-codepoint']], [int(...)]; [symbol_step] is the update of
    [symbol_map] by an item that passes them. *)

Section SymbolItem.
Context {rt : PyRuntime}.

Definition item_error (li : node) : option exn :=
  match tag_attrs li !! lit "id" with
  | None => Some (KeyError (lit "id"))
  | Some _ =>
      match tag_attrs li !! lit "data-codepoint" with
      | None => Some (KeyError (lit "data-codepoint"))
      | Some c =>
          match int_of_str c with
          | None => Some ValueError
          | Some _ => None
          end
      end
  end.

Definition symbol_step (symbol_map : dict) (li : node) : dict :=
  match tag_get li (lit "data-latex-name") with
  | Some latex =>
      if dict_contains latex symbol_map then symbol_map
      else dict_setitem latex (drop 7 (default [] (tag_attrs li !! lit "id"))) symbol_map
  | None => symbol_map
  end.

(** The first exception met along a list of items. *)
Definition first_error (li_list : list node) : option exn :=
  head (omap item_error li_list).

(** The identifier the loop computes for an item. *)
Definition typst_of (li : node) : str := drop 7 (default [] (tag_attrs li !! lit "id")).

(** The pairs the comprehension builds from [symbol_map]. *)
Definition table_of (symbol_map : dict) : list (str * str) :=
  (fun key => (key, default [] (dict_lookup symbol_map key)))
    <$> sorted str_lower (dict_keys symbol_map).
End SymbolItem.

(** An item of the shorthand loop prints [line] and goes on. *)
Definition shorthand_prints {rt : PyRuntime} (li : node) (line : str) : Prop :=
  shorthand_body li = ([line], Returned tt).

(** Why a round of the shorthand loop raises [e] on [li]: an attribute
    is missing, or [html.unescape] raised on the shorthand. *)
Definition shorthand_fails {rt : PyRuntime} (li : node) (e : exn) : Prop :=
  (exists k, e = KeyError k
             /\ (k = lit "id" \/ k = lit "data-math-shorthand")
             /\ tag_attrs li !! k = None)
  \/ (e = ValueError
      /\ exists id raw, tag_attrs li !! lit "id" = Some id
                        /\ tag_attrs li !! lit "data-math-shorthand" = Some raw
                        /\ html_unescape raw = None).

(** Whether a round of the shorthand loop returns can be decided. *)
#[global] Instance shorthand_returns_dec {rt : PyRuntime} li :
  Decision (result (shorthand_body li) = Returned tt).
Proof.
  destruct (result (shorthand_body li)) as [[]|e]; [by left|by right].
Defined.

(** The order [sorted] puts its result in, and what Python promises of
    [sorted(l, key=key)]: the result is in that order, and the elements
    of one key are those of [l] in the order of [l] (the sort is stable). *)
Definition key_le {A} (key : A -> str) (x y : A) : Prop :=
  str_leb (key x) (key y) = true.

Definition stable_sort_of {A} (key : A -> str) (l l' : list A) : Prop :=
  StronglySorted (key_le key) l'
  /\ forall k, filter (fun z => key z = k) l' = filter (fun z => key z = k) l.

(** ** The scripts as relations

    The two scripts once more, as the runs an interpreter can make,
    statement by statement: a run of a loop is a derivation with one step
    per round, standard output is threaded through the rounds, and
    [sorted] is any function that keeps Python's promise. *)

Section Runs.
Context {rt : PyRuntime}.

(** [shorthand_loop_runs li_list out r]: from the output [out], the
    rounds over [li_list] end in [r]. *)
Inductive shorthand_loop_runs : list node -> list str -> Py unit -> Prop :=
| shorthand_loop_end out :
    shorthand_loop_runs [] out (out, Returned tt)
| shorthand_loop_no_id li l out :
    tag_attrs li !! lit "id" = None ->
    shorthand_loop_runs (li :: l) out (out, Raised (KeyError (lit "id")))
| shorthand_loop_no_shorthand li l out id :
    tag_attrs li !! lit "id" = Some id ->
    tag_attrs li !! lit "data-math-shorthand" = None ->
    shorthand_loop_runs (li :: l) out
      (out, Raised (KeyError (lit "data-math-shorthand")))
| shorthand_loop_not_unescaped li l out id raw :
    tag_attrs li !! lit "id" = Some id ->
    tag_attrs li !! lit "data-math-shorthand" = Some raw ->
    html_unescape raw = None ->
    shorthand_loop_runs (li :: l) out (out, Raised ValueError)
| shorthand_loop_print li l out id raw shorthand r :
    tag_attrs li !! lit "id" = Some id ->
    tag_attrs li !! lit "data-math-shorthand" = Some raw ->
    html_unescape raw = Some shorthand ->
    shorthand_loop_runs l
      (out ++ [lit "['" ++ drop 7 id ++ lit "', '" ++ shorthand ++ lit "'],"]) r ->
    shorthand_loop_runs (li :: l) out r.

Inductive shorthand_runs (soup : node) : Py unit -> Prop :=
| shorthand_runs_index :
    find_all (lit "ul") (Some (lit "symbol-grid")) soup !! 1 = None ->
    shorthand_runs soup ([], Raised IndexError)
| shorthand_runs_loop ul r :
    find_all (lit "ul") (Some (lit "symbol-grid")) soup !! 1 = Some ul ->
    shorthand_loop_runs (find_all (lit "li") None ul) [] r ->
    shorthand_runs soup r.

(** [symbol_loop_runs li_list symbol_map r]: from [symbol_map], the
    rounds over [li_list] end in [r]. *)
Inductive symbol_loop_runs : list node -> dict -> outcome dict -> Prop :=
| symbol_loop_end m :
    symbol_loop_runs [] m (Returned m)
| symbol_loop_no_id li l m :
    tag_attrs li !! lit "id" = None ->
    symbol_loop_runs (li :: l) m (Raised (KeyError (lit "id")))
| symbol_loop_no_codepoint li l m id :
    tag_attrs li !! lit "id" = Some id ->
    tag_attrs li !! lit "data-codepoint" = None ->
    symbol_loop_runs (li :: l) m (Raised (KeyError (lit "data-codepoint")))
| symbol_loop_not_int li l m id c :
    tag_attrs li !! lit "id" = Some id ->
    tag_attrs li !! lit "data-codepoint" = Some c ->
    int_of_str c = None ->
    symbol_loop_runs (li :: l) m (Raised ValueError)
| symbol_loop_no_latex li l m id c n r :
    tag_attrs li !! lit "id" = Some id ->
    tag_attrs li !! lit "data-codepoint" = Some c ->
    int_of_str c = Some n ->
    tag_get li (lit "data-latex-name") = None ->
    symbol_loop_runs l m r ->
    symbol_loop_runs (li :: l) m r
| symbol_loop_known li l m id c n latex r :
    tag_attrs li !! lit "id" = Some id ->
    tag_attrs li !! lit "data-codepoint" = Some c ->
    int_of_str c = Some n ->
    tag_get li (lit "data-latex-name") = Some latex ->
    latex ∈ m.*1 ->
    symbol_loop_runs l m r ->
    symbol_loop_runs (li :: l) m r
| symbol_loop_new li l m id c n latex r :
    tag_attrs li !! lit "id" = Some id ->
    tag_attrs li !! lit "data-codepoint" = Some c ->
    int_of_str c = Some n ->
    tag_get li (lit "data-latex-name") = Some latex ->
    latex ∉ m.*1 ->
    symbol_loop_runs l (dict_setitem latex (drop 7 id) m) r ->
    symbol_loop_runs (li :: l) m r.

Inductive symbol_runs (soup : node) : Py unit -> Prop :=
| symbol_runs_no_grid :
    find (lit "ul") (Some (lit "symbol-grid")) soup = None ->
    symbol_runs soup ([], Raised AttributeError)
| symbol_runs_raised ul e :
    find (lit "ul") (Some (lit "symbol-grid")) soup = Some ul ->
    symbol_loop_runs (find_all (lit "li") None ul) [] (Raised e) ->
    symbol_runs soup ([], Raised e)
| symbol_runs_key_error ul symbol_map sorted_keys key :
    find (lit "ul") (Some (lit "symbol-grid")) soup = Some ul ->
    symbol_loop_runs (find_all (lit "li") None ul) [] (Returned symbol_map) ->
    stable_sort_of str_lower (dict_keys symbol_map) sorted_keys ->
    key ∈ sorted_keys ->
    dict_lookup symbol_map key = None ->
    symbol_runs soup ([], Raised (KeyError key))
| symbol_runs_printed ul symbol_map sorted_keys sorted_symbol_map :
    find (lit "ul") (Some (lit "symbol-grid")) soup = Some ul ->
    symbol_loop_runs (find_all (lit "li") None ul) [] (Returned symbol_map) ->
    stable_sort_of str_lower (dict_keys symbol_map) sorted_keys ->
    Forall2 (fun key entry => exists v, dict_lookup symbol_map key = Some v
                                        /\ entry = (key, v))
      sorted_keys sorted_symbol_map ->
    symbol_runs soup (symbol_line <$> sorted_symbol_map, Returned tt).
End Runs.

(** * Properties *)

(** ** The monad and the loops *)

Section Monad.
Context {A B : Type}.

Lemma bind_ret (a : A) (f : A -> Py B) : mret a ≫= f = f a.
Proof. unfold mbind, mret, Py_bind, Py_ret. by destruct (f a). Qed.

Lemma bind_raise (e : exn) (f : A -> Py B) : raise e ≫= f = raise e.
Proof. reflexivity. Qed.

Lemma bind_silent_returned (a : A) (f : A -> Py B) m :
  m = ([], Returned a) -> m ≫= f = f a.
Proof. intros ->. apply bind_ret. Qed.

Lemma bind_raised out (e : exn) (f : A -> Py B) m :
  m = (out, Raised e) -> m ≫= f = (out, Raised e).
Proof. by intros ->. Qed.

Lemma bind_returned out (a : A) (f : A -> Py B) m :
  m = (out, Returned a) -> m ≫= f = (out ++ stdout (f a), result (f a)).
Proof. intros ->. unfold mbind, Py_bind. by destruct (f a). Qed.
End Monad.

Section Loops.
Context {A : Type}.

(** A loop whose body never fails prints, in order, what each round
    prints. *)
Lemma for_each_returned (body : A -> Py unit) l :
  Forall (fun x => result (body x) = Returned tt) l ->
  for_each l body = (concat ((fun x => stdout (body x)) <$> l), Returned tt).
Proof.
  induction 1 as [|x l Hx _ IH]; [done|].
  cbn [for_each]. destruct (body x) as [o r] eqn:E. simpl in Hx. subst r.
  erewrite bind_returned by reflexivity. rewrite IH. simpl. by rewrite E.
Qed.

(** A loop stops at the first round that raises, with the output of
    the rounds before it and of that round. *)
Lemma for_each_raised (body : A -> Py unit) pre x post e :
  Forall (fun x => result (body x) = Returned tt) pre ->
  result (body x) = Raised e ->
  for_each (pre ++ x :: post) body
  = (concat ((fun x => stdout (body x)) <$> pre) ++ stdout (body x), Raised e).
Proof.
  intros Hpre Hx. induction Hpre as [|y pre Hy _ IH].
  - cbn [app for_each fmap list_fmap concat]. destruct (body x) as [o r].
    simpl in *. by subst r.
  - cbn [app for_each]. destruct (body y) as [o r] eqn:E. simpl in Hy. subst r.
    erewrite bind_returned by reflexivity. rewrite IH. simpl.
    rewrite E. simpl. by rewrite app_assoc.
Qed.

(** Whatever a list of rounds does, it splits at the first round that
    does not return. *)
Lemma first_failure (P : A -> Prop) `{!forall x, Decision (P x)} l :
  Forall P l \/ exists pre x post, l = pre ++ x :: post /\ Forall P pre /\ ~ P x.
Proof.
  induction l as [|y l IH]; [by left|].
  destruct (decide (P y)) as [Hy|Hy].
  - destruct IH as [IH|(pre & x & post & -> & Hpre & Hx)].
    + left. by constructor.
    + right. exists (y :: pre), x, post. repeat split; [by constructor|done].
  - right. exists [], y, l. repeat split; [constructor|done].
Qed.
End Loops.

(** ** The shorthand extractor *)

Section ShorthandFacts.
Context {rt : PyRuntime}.

(** The loop body, by the attributes of the item. *)
Lemma shorthand_body_eq li :
  shorthand_body li =
  match tag_attrs li !! lit "id" with
  | None => ([], Raised (KeyError (lit "id")))
  | Some id =>
      match tag_attrs li !! lit "data-math-shorthand" with
      | None => ([], Raised (KeyError (lit "data-math-shorthand")))
      | Some raw =>
          match html_unescape raw with
          | None => ([], Raised ValueError)
          | Some shorthand =>
              ([lit "['" ++ drop 7 id ++ lit "', '" ++ shorthand ++ lit "'],"],
               Returned tt)
          end
      end
  end.
Proof.
  unfold shorthand_body, tag_getitem, unescape.
  destruct (tag_attrs li !! lit "id") as [id|]; [|done].
  rewrite bind_ret.
  destruct (tag_attrs li !! lit "data-math-shorthand") as [raw|]; [|done].
  rewrite bind_ret.
  destruct (html_unescape raw) as [shorthand|]; [|done].
  by rewrite bind_ret.
Qed.

Lemma shorthand_body_cases li :
  (exists line, shorthand_prints li line)
  \/ (exists e, shorthand_body li = ([], Raised e) /\ shorthand_fails li e).
Proof.
  unfold shorthand_prints, shorthand_fails. rewrite shorthand_body_eq.
  destruct (tag_attrs li !! lit "id") as [id|] eqn:E1;
    [|right; eexists; split; [done|left; eauto 6]].
  destruct (tag_attrs li !! lit "data-math-shorthand") as [raw|] eqn:E2;
    [|right; eexists; split; [done|left; eauto 6]].
  destruct (html_unescape raw) as [shorthand|] eqn:E3; [left; eauto|].
  right. eexists. split; [done|]. right. eauto 6.
Qed.

Lemma shorthand_prints_result li :
  result (shorthand_body li) = Returned tt <-> exists line, shorthand_prints li line.
Proof.
  split.
  - destruct (shorthand_body_cases li) as [?|(e & E & _)]; [done|].
    by rewrite E.
  - intros [line E]. unfold shorthand_prints in E. by rewrite E.
Qed.

(** The lines of a run of items that all print. *)
Lemma shorthand_lines_Forall2 l :
  Forall (fun li => result (shorthand_body li) = Returned tt) l ->
  Forall2 shorthand_prints l (concat ((fun li => stdout (shorthand_body li)) <$> l)).
Proof.
  induction 1 as [|li l Hli _ IH]; [constructor|].
  apply shorthand_prints_result in Hli as [line E]. cbn.
  rewrite E at 1. simpl. by constructor.
Qed.

(** With fewer than two grids on the page, [ul_list[1]] raises. *)
Lemma shorthand_run_no_grid soup :
  find_all (lit "ul") (Some (lit "symbol-grid")) soup !! 1 = None ->
  shorthand_run soup = ([], Raised IndexError).
Proof. intros E. unfold shorthand_run, list_getitem. by rewrite E. Qed.

(** Otherwise the run is the loop over the items of the second grid. *)
Lemma shorthand_run_loop soup ul :
  find_all (lit "ul") (Some (lit "symbol-grid")) soup !! 1 = Some ul ->
  shorthand_run soup = for_each (find_all (lit "li") None ul) shorthand_body.
Proof. intros E. unfold shorthand_run, list_getitem. rewrite E. by rewrite bind_ret. Qed.

(** The loop prints the lines of the items before the first one whose
    round raises, and all lines when there is none. *)
Lemma shorthand_loop_cases l :
  (Forall (fun li => result (shorthand_body li) = Returned tt) l
   /\ exists out, for_each l shorthand_body = (out, Returned tt)
                  /\ Forall2 shorthand_prints l out)
  \/ (exists pre bad post e out,
        l = pre ++ bad :: post
        /\ for_each l shorthand_body = (out, Raised e)
        /\ Forall2 shorthand_prints pre out
        /\ shorthand_fails bad e
        /\ shorthand_body bad = ([], Raised e)).
Proof.
  destruct (first_failure (fun li => result (shorthand_body li) = Returned tt) l)
    as [Hall|(pre & bad & post & -> & Hpre & Hbad)].
  - left. split; [done|]. eexists. split; [by apply for_each_returned|].
    by apply shorthand_lines_Forall2.
  - right. destruct (shorthand_body_cases bad) as [Hp|(e & E & Hfail)].
    { destruct Hbad. by apply shorthand_prints_result. }
    exists pre, bad, post, e. eexists. split; [done|]. split.
    + rewrite (for_each_raised _ pre bad post e); [|done|by rewrite E].
      rewrite E. simpl. by rewrite app_nil_r.
    + split; [by apply shorthand_lines_Forall2|done].
Qed.

(** The loop on a list whose first items print and whose next item
    raises. *)
Lemma shorthand_loop_raised pre bad post e :
  Forall (fun li => exists line, shorthand_prints li line) pre ->
  shorthand_body bad = ([], Raised e) ->
  exists out, for_each (pre ++ bad :: post) shorthand_body = (out, Raised e)
              /\ Forall2 shorthand_prints pre out.
Proof.
  intros Hpre Hbad.
  assert (Forall (fun li => result (shorthand_body li) = Returned tt) pre) as Hpre'.
  { eapply Forall_impl; [exact Hpre|]. intros li. by rewrite shorthand_prints_result. }
  eexists. split.
  - rewrite (for_each_raised _ pre bad post e); [|done|by rewrite Hbad].
    rewrite Hbad. simpl. by rewrite app_nil_r.
  - by apply shorthand_lines_Forall2.
Qed.
End ShorthandFacts.

(** [html.unescape] leaves a text without ['&'] as it is, and decodes
    [&gt;] by the entry of the table. *)
Lemma html_unescape_plain {rt : PyRuntime} s : 38%N ∉ s -> html_unescape s = Some s.
Proof. intros Hs. unfold html_unescape. by rewrite bool_decide_eq_false_2. Qed.

Lemma html_unescape_arrow {rt : PyRuntime} :
  html5 (lit "gt;") = Some (lit ">") ->
  html_unescape (lit "-&gt;") = Some (lit "->").
Proof.
  intros Hgt. vm_compute in Hgt. vm_compute. by rewrite Hgt.
Qed.

Lemma html_unescape_double_arrow {rt : PyRuntime} :
  html5 (lit "lt;") = Some (lit "<") ->
  html5 (lit "gt;") = Some (lit ">") ->
  html_unescape (lit "&lt;-&gt;") = Some (lit "<->").
Proof.
  intros Hlt Hgt. vm_compute in Hlt, Hgt. vm_compute. by rewrite Hlt, Hgt.
Qed.

(** The function on a text with named, numeric and unknown references. *)
Example html_unescape_sample :
  html_unescape (rt := Demo.runtime) (lit "&lt;-&gt; &amp;gt; &#65;&#x42;&gtx &zz; &")
  = Some (lit "<-> &gt; AB>x &zz; &").
Proof. by vm_compute. Qed.

(** C5. Shorthand extractor: when the second symbol-grid list holds one
    list item, the run prints one line, made of the item's id without its
    first seven characters and of its HTML-unescaped
    [data-math-shorthand] (and raises [ValueError] with nothing printed
    where [html.unescape] raises); for the id [symbol-arrow.r] and the
    shorthand [-&gt;] (as the element holds it, or already decoded to [->]
    by the parser) that line is [['arrow.r', '->'],]. *)
Theorem shorthand_arrow_example {rt : PyRuntime} (soup ul li : node) (id raw : str) :
  html5 (lit "gt;") = Some (lit ">") ->
  find_all (lit "ul") (Some (lit "symbol-grid")) soup !! 1 = Some ul ->
  find_all (lit "li") None ul = [li] ->
  tag_attrs li !! lit "id" = Some id ->
  tag_attrs li !! lit "data-math-shorthand" = Some raw ->
  shorthand_run soup
  = match html_unescape raw with
    | Some shorthand =>
        ([lit "['" ++ drop 7 id ++ lit "', '" ++ shorthand ++ lit "'],"], Returned tt)
    | None => ([], Raised ValueError)
    end
  /\ (id = lit "symbol-arrow.r" -> raw = lit "-&gt;" \/ raw = lit "->" ->
      shorthand_run soup = ([lit "['arrow.r', '->'],"], Returned tt)).
Proof.
  intros Hgt Hul Hli Hid Hraw.
  assert (Hrun : shorthand_run soup
    = match html_unescape raw with
      | Some shorthand =>
          ([lit "['" ++ drop 7 id ++ lit "', '" ++ shorthand ++ lit "'],"], Returned tt)
      | None => ([], Raised ValueError)
      end).
  { rewrite (shorthand_run_loop soup ul Hul), Hli. cbn [for_each].
    rewrite shorthand_body_eq, Hid, Hraw. by destruct (html_unescape raw). }
  split; [exact Hrun|].
  intros -> Hr. rewrite Hrun. destruct Hr as [-> | ->].
  - by rewrite (html_unescape_arrow Hgt).
  - rewrite html_unescape_plain; [done|]. apply (bool_decide_unpack _). by vm_compute.
Qed.

Lemma shorthand_arrow_example_witness :
  shorthand_run (rt := Demo.runtime) (Demo.arrow_page (lit "-&gt;"))
  = ([lit "['arrow.r', '->'],"], Returned tt).
Proof.
  refine (proj2 (shorthand_arrow_example (rt := Demo.runtime)
            (Demo.arrow_page (lit "-&gt;"))
            (Demo.symbol_grid [Demo.arrow_item (lit "-&gt;")])
            (Demo.arrow_item (lit "-&gt;"))
            (lit "symbol-arrow.r") (lit "-&gt;") _ _ _ _ _) _ _).
  - reflexivity.
  - vm_compute. reflexivity.
  - vm_compute. reflexivity.
  - vm_compute. reflexivity.
  - vm_compute. reflexivity.
  - reflexivity.
  - left. reflexivity.
Defined.

(** C6. Shorthand extractor: for every parsed page, the lines on
    standard output are, in order and one for one, the lines of the first
    [n] list items of the second symbol-grid list in document order;
    [n] is the number of items when the run returns, and the position of
    the item whose round raised when it does not.  Items are neither
    reordered nor merged, so equal items give equal lines at their own
    positions; a page with fewer than two grids prints nothing. *)
Theorem shorthand_output_in_document_order {rt : PyRuntime} (soup : node) :
  match find_all (lit "ul") (Some (lit "symbol-grid")) soup !! 1 with
  | None => stdout (shorthand_run soup) = []
  | Some ul =>
      let li_list := find_all (lit "li") None ul in
      exists n : nat,
        Forall2 shorthand_prints (take n li_list) (stdout (shorthand_run soup))
        /\ (result (shorthand_run soup) = Returned tt -> n = length li_list)
        /\ (forall e, result (shorthand_run soup) = Raised e ->
              exists bad, li_list !! n = Some bad
                          /\ shorthand_body bad = ([], Raised e))
  end.
Proof.
  destruct (find_all (lit "ul") (Some (lit "symbol-grid")) soup !! 1) as [ul|] eqn:Hul.
  - rewrite (shorthand_run_loop soup ul Hul). cbv zeta.
    destruct (shorthand_loop_cases (find_all (lit "li") None ul))
      as [(_ & out & -> & Hout)
         |(pre & bad & post & e' & out & Hl & -> & Hout & _ & Hbad)].
    + exists (length (find_all (lit "li") None ul)). rewrite firstn_all.
      by repeat split.
    + exists (length pre). rewrite Hl, take_app_length. simpl.
      split; [done|]. split; [done|]. intros e [= <-].
      exists bad. by rewrite list_lookup_middle.
  - by rewrite (shorthand_run_no_grid soup Hul).
Qed.

(** C7. Shorthand extractor: with fewer than two symbol-grid lists the
    run raises [IndexError] and prints nothing; with two, when the loop
    comes to a list item that lacks [id] or [data-math-shorthand] (the
    rounds of the items before it have returned), the run raises
    [KeyError] for the missing attribute and the output is exactly the
    lines of the items before it; and whenever some list item lacks one
    of the two attributes the run raises, at the first item whose round
    fails, with exactly the lines of the items before that one printed
    (that item lacks an attribute, or [html.unescape] raised
    [ValueError] on its shorthand). *)
Theorem shorthand_failures {rt : PyRuntime} (soup : node) :
  (length (find_all (lit "ul") (Some (lit "symbol-grid")) soup) < 2 ->
   shorthand_run soup = ([], Raised IndexError))
  /\ (forall ul pre bad post,
        find_all (lit "ul") (Some (lit "symbol-grid")) soup !! 1 = Some ul ->
        find_all (lit "li") None ul = pre ++ bad :: post ->
        Forall (fun li => exists line, shorthand_prints li line) pre ->
        tag_attrs bad !! lit "id" = None
        \/ tag_attrs bad !! lit "data-math-shorthand" = None ->
        exists k : str,
          (k = lit "id" \/ k = lit "data-math-shorthand")
          /\ tag_attrs bad !! k = None
          /\ result (shorthand_run soup) = Raised (KeyError k)
          /\ Forall2 shorthand_prints pre (stdout (shorthand_run soup)))
  /\ (forall ul li,
        find_all (lit "ul") (Some (lit "symbol-grid")) soup !! 1 = Some ul ->
        li ∈ find_all (lit "li") None ul ->
        tag_attrs li !! lit "id" = None
        \/ tag_attrs li !! lit "data-math-shorthand" = None ->
        exists (n : nat) (bad : node) (e : exn),
          find_all (lit "li") None ul !! n = Some bad
          /\ shorthand_fails bad e
          /\ result (shorthand_run soup) = Raised e
          /\ Forall2 shorthand_prints (take n (find_all (lit "li") None ul))
               (stdout (shorthand_run soup))).
Proof.
  split; [|split].
  - intros Hlen. apply shorthand_run_no_grid. apply lookup_ge_None. lia.
  - intros ul pre bad post Hul Hl Hpre Hmiss.
    rewrite (shorthand_run_loop soup ul Hul), Hl.
    assert (exists k, (k = lit "id" \/ k = lit "data-math-shorthand")
                      /\ tag_attrs bad !! k = None
                      /\ shorthand_body bad = ([], Raised (KeyError k)))
      as (k & Hk & Hnone & Hbad).
    { rewrite shorthand_body_eq.
      destruct (tag_attrs bad !! lit "id") as [id|] eqn:Hid.
      - destruct Hmiss as [?|Hsh]; [done|]. rewrite Hsh. eauto 6.
      - eauto 6. }
    destruct (shorthand_loop_raised pre bad post _ Hpre Hbad) as (out & -> & Hout).
    by exists k.
  - intros ul li Hul Hli Hmiss. rewrite (shorthand_run_loop soup ul Hul).
    destruct (shorthand_loop_cases (find_all (lit "li") None ul))
      as [(Hall & _)
         |(pre & bad & post & e & out & Hl & -> & Hout & Hfail & _)].
    + exfalso. rewrite Forall_forall in Hall. specialize (Hall li Hli).
      rewrite shorthand_body_eq in Hall.
      destruct Hmiss as [E|E].
      * by rewrite E in Hall.
      * rewrite E in Hall. by destruct (tag_attrs li !! lit "id").
    + exists (length pre), bad, e.
      rewrite Hl, take_app_length, list_lookup_middle by done.
      by repeat split.
Qed.

Lemma shorthand_failures_witness :
  shorthand_run (rt := Demo.runtime) (Demo.page []) = ([], Raised IndexError)
  /\ (exists k : str,
        (k = lit "id" \/ k = lit "data-math-shorthand")
        /\ tag_attrs (Demo.li [(lit "id", lit "symbol-dots.h")]) !! k = None
        /\ result (shorthand_run (rt := Demo.runtime) Demo.broken_arrow_page)
           = Raised (KeyError k)
        /\ Forall2 (shorthand_prints (rt := Demo.runtime))
             [Demo.arrow_item (lit "->")]
             (stdout (shorthand_run (rt := Demo.runtime) Demo.broken_arrow_page)))
  /\ exists (n : nat) (bad : node) (e : exn),
       [Demo.arrow_item (lit "->"); Demo.li [(lit "id", lit "symbol-dots.h")]] !! n = Some bad
       /\ shorthand_fails (rt := Demo.runtime) bad e
       /\ result (shorthand_run (rt := Demo.runtime) Demo.broken_arrow_page) = Raised e
       /\ Forall2 (shorthand_prints (rt := Demo.runtime))
            (take n [Demo.arrow_item (lit "->"); Demo.li [(lit "id", lit "symbol-dots.h")]])
            (stdout (shorthand_run (rt := Demo.runtime) Demo.broken_arrow_page)).
Proof.
  split; [|split].
  - apply (proj1 (shorthand_failures (rt := Demo.runtime) (Demo.page []))).
    vm_compute. lia.
  - apply (proj1 (proj2 (shorthand_failures (rt := Demo.runtime) Demo.broken_arrow_page))
             (Demo.symbol_grid
                [Demo.arrow_item (lit "->"); Demo.li [(lit "id", lit "symbol-dots.h")]])
             [Demo.arrow_item (lit "->")]
             (Demo.li [(lit "id", lit "symbol-dots.h")]) []).
    + vm_compute. reflexivity.
    + vm_compute. reflexivity.
    + constructor; [|constructor]. eexists. vm_compute. reflexivity.
    + right. vm_compute. reflexivity.
  - apply (proj2 (proj2 (shorthand_failures (rt := Demo.runtime) Demo.broken_arrow_page))
             (Demo.symbol_grid
                [Demo.arrow_item (lit "->"); Demo.li [(lit "id", lit "symbol-dots.h")]])
             (Demo.li [(lit "id", lit "symbol-dots.h")])).
    + vm_compute. reflexivity.
    + right. left.
    + right. vm_compute. reflexivity.
Defined.

(** ** The order on strings and [sorted] *)

Lemma str_ltb_cotrans a b c :
  str_ltb a c = true -> str_ltb a b = true \/ str_ltb b c = true.
Proof.
  revert b c. induction a as [|x a IH]; intros [|y b] [|z c]; simpl; auto.
  destruct (N.ltb_spec x z), (N.ltb_spec x y), (N.ltb_spec y z); auto; try lia.
  all: destruct (N.eqb_spec x z), (N.eqb_spec x y), (N.eqb_spec y z);
    auto; try lia; done.
Qed.

Lemma str_ltb_asym a b : str_ltb a b = true -> str_ltb b a = false.
Proof.
  revert b. induction a as [|x a IH]; intros [|y b]; simpl; auto.
  destruct (N.ltb_spec x y), (N.ltb_spec y x); auto; try lia.
  all: destruct (N.eqb_spec x y), (N.eqb_spec y x); auto; try lia; done.
Qed.

Lemma str_ltb_irrefl a : str_ltb a a = false.
Proof. destruct (str_ltb a a) eqn:E; [|done]. by rewrite (str_ltb_asym _ _ E) in E. Qed.

Lemma str_leb_refl a : str_leb a a = true.
Proof. unfold str_leb. by rewrite str_ltb_irrefl. Qed.

Lemma str_leb_trans a b c :
  str_leb a b = true -> str_leb b c = true -> str_leb a c = true.
Proof.
  unfold str_leb. intros Hab Hbc.
  destruct (str_ltb c a) eqn:E; [|done].
  destruct (str_ltb_cotrans _ b _ E) as [E'|E']; rewrite E' in *; done.
Qed.

Lemma str_ltb_leb a b : str_ltb a b = true -> str_leb a b = true.
Proof. intros E. unfold str_leb. by rewrite (str_ltb_asym _ _ E). Qed.

Lemma str_leb_total a b : str_leb a b = true \/ str_leb b a = true.
Proof.
  destruct (str_ltb b a) eqn:E; [right; by apply str_ltb_leb|left].
  unfold str_leb. by rewrite E.
Qed.

Lemma str_leb_antisym a b : str_leb a b = true -> str_leb b a = true -> a = b.
Proof.
  unfold str_leb. revert b. induction a as [|x a IH]; intros [|y b]; simpl; try done.
  destruct (N.ltb_spec x y), (N.ltb_spec y x); try done; try lia.
  assert (x = y) as -> by lia. rewrite N.eqb_refl. intros ? ?. f_equal. by apply IH.
Qed.

Section SortedFacts.
Context {A : Type} (key : A -> str).

Lemma sorted_insert_perm x l : Permutation (sorted_insert key x l) (x :: l).
Proof.
  induction l as [|y l IH]; simpl; [done|].
  destruct (str_ltb (key y) (key x)); [|done].
  rewrite IH. apply perm_swap.
Qed.

Lemma sorted_perm l : Permutation (sorted key l) l.
Proof.
  induction l as [|x l IH]; simpl; [done|].
  rewrite sorted_insert_perm. by constructor.
Qed.

Lemma sorted_insert_sorted x l :
  StronglySorted (key_le key) l -> StronglySorted (key_le key) (sorted_insert key x l).
Proof.
  induction 1 as [|y l Hl IH Hy]; simpl.
  - repeat constructor.
  - destruct (str_ltb (key y) (key x)) eqn:E.
    + constructor; [done|].
      rewrite sorted_insert_perm. constructor; [|done].
      by apply str_ltb_leb.
    + assert (key_le key x y) as Hxy by (unfold key_le, str_leb; by rewrite E).
      constructor; [by constructor|]. constructor; [done|].
      eapply Forall_impl; [exact Hy|]. intros z Hz.
      by apply (str_leb_trans _ (key y)).
Qed.

(** [sorted] sorts. *)
Lemma sorted_sorted l : StronglySorted (key_le key) (sorted key l).
Proof.
  induction l as [|x l IH]; simpl; [constructor|]. by apply sorted_insert_sorted.
Qed.

Lemma sorted_insert_stable k x l :
  filter (fun z => key z = k) (sorted_insert key x l)
  = filter (fun z => key z = k) (x :: l).
Proof.
  induction l as [|y l IH]; simpl; [done|].
  destruct (str_ltb (key y) (key x)) eqn:E; [|done].
  rewrite !filter_cons, IH, !filter_cons.
  destruct (decide (key y = k)) as [Hy|Hy], (decide (key x = k)) as [Hx|Hx]; try done.
  rewrite Hy, Hx, str_ltb_irrefl in E. done.
Qed.

(** [sorted] is stable: the elements of one key keep their order. *)
Lemma sorted_stable k l :
  filter (fun z => key z = k) (sorted key l) = filter (fun z => key z = k) l.
Proof.
  induction l as [|x l IH]; simpl; [done|].
  by rewrite sorted_insert_stable, !filter_cons, IH.
Qed.

(** A sorted list is determined by the elements of each key in their
    order: any stable sort returns what [sorted] returns. *)
Lemma stable_sorted_unique l1 l2 :
  StronglySorted (key_le key) l1 -> StronglySorted (key_le key) l2 ->
  (forall k, filter (fun z => key z = k) l1 = filter (fun z => key z = k) l2) ->
  l1 = l2.
Proof.
  intros H1. revert l2. induction H1 as [|x l1 Hl1 IH Hx]; intros l2 H2 Heq.
  - destruct l2 as [|y l2]; [done|].
    specialize (Heq (key y)). rewrite filter_nil, filter_cons_True in Heq; done.
  - destruct H2 as [|y l2 Hl2 Hy].
    { specialize (Heq (key x)). rewrite filter_nil, filter_cons_True in Heq; done. }
    assert (key x = key y) as Hk.
    { apply str_leb_antisym.
      - assert (y ∈ x :: l1) as Hin.
        { apply (list_elem_of_filter (fun z => key z = key y)).
          rewrite Heq, filter_cons_True by done. left. }
        apply elem_of_cons in Hin as [->|Hin]; [apply str_leb_refl|].
        rewrite Forall_forall in Hx. by apply Hx.
      - assert (x ∈ y :: l2) as Hin.
        { apply (list_elem_of_filter (fun z => key z = key x)).
          rewrite <- Heq, filter_cons_True by done. left. }
        apply elem_of_cons in Hin as [->|Hin]; [apply str_leb_refl|].
        rewrite Forall_forall in Hy. by apply Hy. }
    assert (x = y) as ->.
    { specialize (Heq (key x)).
      rewrite filter_cons_True, (filter_cons_True _ y) in Heq by done.
      congruence. }
    f_equal. apply IH; [done|]. intros k. specialize (Heq k).
    rewrite !filter_cons in Heq. destruct (decide (key y = k)); congruence.
Qed.
End SortedFacts.

(** Keys equal up to case stay in the order they came in. *)
Example sorted_sample :
  sorted Demo.ascii_lower [lit "\beta"; lit "\alpha"; lit "\Alpha"]
  = [lit "\alpha"; lit "\Alpha"; lit "\beta"]
  /\ sorted Demo.ascii_lower [lit "\beta"; lit "\Alpha"; lit "\alpha"]
     = [lit "\Alpha"; lit "\alpha"; lit "\beta"].
Proof. split; by vm_compute. Qed.

(** ** Dictionaries *)

Lemma dict_contains_spec k (d : dict) : dict_contains k d = true <-> k ∈ d.*1.
Proof. unfold dict_contains. by rewrite bool_decide_eq_true. Qed.

Lemma dict_setitem_fresh k v (d : dict) :
  k ∉ d.*1 -> dict_setitem k v d = d ++ [(k, v)].
Proof.
  induction d as [|[k' v'] d IH]; simpl; [done|].
  intros Hk. apply not_elem_of_cons in Hk as [Hne Hk].
  rewrite bool_decide_eq_false_2 by done. by rewrite IH.
Qed.

Lemma dict_lookup_None (d : dict) k : dict_lookup d k = None <-> k ∉ d.*1.
Proof.
  induction d as [|[k' v'] d IH]; simpl.
  - split; [intros _; apply not_elem_of_nil|done].
  - case_bool_decide as E; simpl.
    + subst. split; [done|]. intros []. left.
    + rewrite IH, not_elem_of_cons. split; [by split|by intros [_ ?]].
Qed.

Lemma dict_lookup_is_Some (d : dict) k : is_Some (dict_lookup d k) <-> k ∈ d.*1.
Proof.
  rewrite <- not_eq_None_Some, dict_lookup_None.
  split; [apply dec_stable|by intros ? ?].
Qed.

Lemma dict_lookup_app (d d' : dict) k :
  dict_lookup (d ++ d') k
  = match dict_lookup d k with Some v => Some v | None => dict_lookup d' k end.
Proof.
  induction d as [|[k' v'] d IH]; simpl; [done|]. by case_bool_decide.
Qed.

Lemma dict_lookup_elem_of (d : dict) k v : dict_lookup d k = Some v -> (k, v) ∈ d.
Proof.
  induction d as [|[k' v'] d IH]; simpl; [done|].
  case_bool_decide as E.
  - intros [= ->]. subst. left.
  - intros. right. by apply IH.
Qed.

Lemma dict_lookup_NoDup (d : dict) k v :
  NoDup d.*1 -> (k, v) ∈ d -> dict_lookup d k = Some v.
Proof.
  induction d as [|[k' v'] d IH]; simpl; [by intros _ ?%elem_of_nil|].
  intros [Hk' Hd]%NoDup_cons [[= -> ->]|Hin]%elem_of_cons.
  - by rewrite bool_decide_eq_true_2.
  - case_bool_decide as E; [|by apply IH].
    subst. destruct Hk'. apply list_elem_of_fmap. by exists (k, v).
Qed.

(** ** The symbol loop *)

Section SymbolLoop.
Context {rt : PyRuntime}.

Lemma symbol_step_eq m li :
  symbol_step m li =
  match tag_get li (lit "data-latex-name") with
  | Some latex => if decide (latex ∈ m.*1) then m else m ++ [(latex, typst_of li)]
  | None => m
  end.
Proof.
  unfold symbol_step, dict_contains.
  destruct (tag_get li (lit "data-latex-name")) as [latex|]; [|done].
  case_bool_decide; case_decide; try done. by rewrite dict_setitem_fresh.
Qed.

(** One round of the loop: the three reads, then the update. *)
Lemma symbol_body_eq m li :
  symbol_body m li =
  match item_error li with
  | Some e => ([], Raised e)
  | None => ([], Returned (symbol_step m li))
  end.
Proof.
  unfold symbol_body, item_error, symbol_step, tag_getitem, int.
  destruct (tag_attrs li !! lit "id") as [id|]; [|done]. rewrite bind_ret.
  destruct (tag_attrs li !! lit "data-codepoint") as [c|]; [|done]. rewrite bind_ret.
  destruct (int_of_str c) as [n|]; [|done]. rewrite bind_ret. simpl.
  destruct (tag_get li (lit "data-latex-name")); [|done].
  by destruct (dict_contains _ _).
Qed.

(** The whole loop: it raises what the first failing item raises, and
    otherwise folds the update along the items. *)
Lemma symbol_loop_eq l m :
  for_fold l symbol_body m =
  match first_error l with
  | Some e => ([], Raised e)
  | None => ([], Returned (foldl symbol_step m l))
  end.
Proof.
  revert m. induction l as [|li l IH]; intros m; [done|].
  cbn [for_fold foldl]. rewrite symbol_body_eq. unfold first_error in *.
  cbn [omap list_omap]. destruct (item_error li) as [e|]; [done|].
  erewrite bind_silent_returned by reflexivity. apply IH.
Qed.

Lemma first_error_None l :
  first_error l = None <-> Forall (fun li => item_error li = None) l.
Proof.
  unfold first_error. induction l as [|li l IH]; cbn [omap list_omap].
  - split; [constructor|done].
  - destruct (item_error li) as [e|] eqn:E; simpl.
    + split; [done|]. intros Hl. apply Forall_cons in Hl as [? _]. congruence.
    + rewrite IH. split; [by constructor|]. by intros [_ ?]%Forall_cons.
Qed.

Lemma first_error_Some l e :
  first_error l = Some e <->
  exists pre bad post, l = pre ++ bad :: post
    /\ Forall (fun li => item_error li = None) pre /\ item_error bad = Some e.
Proof.
  unfold first_error. induction l as [|li l IH]; cbn [omap list_omap].
  - split; [done|]. intros (pre & bad & post & E & _). by destruct pre.
  - destruct (item_error li) as [e'|] eqn:E; simpl.
    + split.
      * intros [= ->]. exists [], li, l. repeat split; [constructor|done].
      * intros (pre & bad & post & El & Hpre & Hbad).
        destruct pre as [|x pre]; injection El as <- ->; [congruence|].
        apply Forall_cons in Hpre as [? _]. congruence.
    + rewrite IH. split.
      * intros (pre & bad & post & -> & Hpre & Hbad).
        exists (li :: pre), bad, post. repeat split; [by constructor|done].
      * intros (pre & bad & post & El & Hpre & Hbad).
        destruct pre as [|x pre]; injection El as <- ->; [congruence|].
        apply Forall_cons in Hpre as [_ Hpre]. eauto 6.
Qed.

(** The keys stay distinct. *)
Lemma symbol_map_NoDup l m : NoDup m.*1 -> NoDup (foldl symbol_step m l).*1.
Proof.
  revert m. induction l as [|li l IH]; intros m Hm; [done|].
  cbn [foldl]. apply IH. rewrite symbol_step_eq.
  destruct (tag_get li _) as [latex|]; [|done]. case_decide; [done|].
  rewrite fmap_app. apply NoDup_app. split; [done|]. split.
  - intros k Hk [->|[]%elem_of_nil]%elem_of_cons. done.
  - apply NoDup_singleton.
Qed.

(** An entry, once made, is never changed. *)
Lemma symbol_map_keeps l m k v :
  dict_lookup m k = Some v -> dict_lookup (foldl symbol_step m l) k = Some v.
Proof.
  revert m. induction l as [|li l IH]; intros m Hm; [done|].
  cbn [foldl]. apply IH. rewrite symbol_step_eq.
  destruct (tag_get li _) as [latex|]; [|done]. case_decide; [done|].
  by rewrite dict_lookup_app, Hm.
Qed.

(** Items that do not carry [k] leave [k] out of the dictionary. *)
Lemma symbol_map_absent l m k :
  k ∉ m.*1 ->
  Forall (fun li => tag_get li (lit "data-latex-name") <> Some k) l ->
  k ∉ (foldl symbol_step m l).*1.
Proof.
  intros Hm Hl. revert m Hm. induction Hl as [|li l Hli _ IH]; intros m Hm; [done|].
  cbn [foldl]. apply IH. rewrite symbol_step_eq.
  destruct (tag_get li _) as [latex|]; [|done]. case_decide; [done|].
  rewrite fmap_app. apply not_elem_of_app. split; [done|].
  intros [->|[]%elem_of_nil]%elem_of_cons. done.
Qed.

(** First occurrence wins. *)
Lemma symbol_map_first pre li post m k :
  k ∉ m.*1 ->
  Forall (fun li' => tag_get li' (lit "data-latex-name") <> Some k) pre ->
  tag_get li (lit "data-latex-name") = Some k ->
  dict_lookup (foldl symbol_step m (pre ++ li :: post)) k = Some (typst_of li).
Proof.
  intros Hm Hpre Hli. rewrite foldl_app. cbn [foldl]. apply symbol_map_keeps.
  pose proof (symbol_map_absent pre m k Hm Hpre) as Habs.
  rewrite symbol_step_eq, Hli. case_decide; [done|].
  rewrite dict_lookup_app.
  apply dict_lookup_None in Habs. rewrite Habs. simpl.
  by rewrite bool_decide_eq_true_2.
Qed.

(** Every entry was made by an item that carries its key. *)
Lemma symbol_map_origin l m k v :
  (k, v) ∈ foldl symbol_step m l ->
  (k, v) ∈ m
  \/ exists li, li ∈ l /\ tag_get li (lit "data-latex-name") = Some k /\ v = typst_of li.
Proof.
  revert m. induction l as [|li l IH]; intros m; [by left|].
  cbn [foldl]. intros [Hin|(li' & Hin & ?)]%IH.
  - rewrite symbol_step_eq in Hin.
    destruct (tag_get li _) as [latex|] eqn:E; [|by left].
    case_decide; [by left|].
    apply elem_of_app in Hin as [?|[[= -> ->]|[]%elem_of_nil]%elem_of_cons]; [by left|].
    right. exists li. split; [left|done].
  - right. exists li'. split; [by right|done].
Qed.

(** An item without [data-latex-name] leaves the dictionary as it is. *)
Lemma symbol_step_no_latex m li :
  tag_get li (lit "data-latex-name") = None -> symbol_step m li = m.
Proof. intros E. unfold symbol_step. by rewrite E. Qed.
End SymbolLoop.

(** ** The table and the printed lines *)

Section SymbolTable.
Context {rt : PyRuntime}.

Lemma comprehension_lookup (m : dict) ks :
  Forall (fun k => k ∈ m.*1) ks ->
  comprehension ks (fun key => v ← dict_getitem m key; mret (key, v))
  = ([], Returned ((fun key => (key, default [] (dict_lookup m key))) <$> ks)).
Proof.
  induction 1 as [|k ks Hk _ IH]; [done|].
  cbn [comprehension]. rewrite IH. unfold dict_getitem.
  apply dict_lookup_is_Some in Hk as [v Hv]. rewrite fmap_cons, Hv.
  rewrite !bind_ret.
  by erewrite bind_silent_returned by reflexivity.
Qed.

(** [symbol_map[key]] never raises: the keys come from [symbol_map]. *)
Lemma sorted_symbol_map_eq m : sorted_symbol_map m = ([], Returned (table_of m)).
Proof.
  unfold sorted_symbol_map, table_of. apply comprehension_lookup.
  apply Forall_forall. intros k Hk. unfold dict_keys in Hk.
  by rewrite (sorted_perm str_lower (m.*1)) in Hk.
Qed.

Lemma table_of_keys m : (table_of m).*1 = sorted str_lower (dict_keys m).
Proof.
  unfold table_of. rewrite <- list_fmap_compose.
  rewrite <- (list_fmap_id (sorted _ _)) at 2. by apply list_fmap_ext.
Qed.

Lemma table_of_perm m : NoDup m.*1 -> Permutation (table_of m) m.
Proof.
  intros Hm. apply NoDup_Permutation.
  - apply (NoDup_fmap_1 fst). rewrite table_of_keys.
    unfold dict_keys. by rewrite sorted_perm.
  - apply (NoDup_fmap_1 fst), Hm.
  - intros [k v]. unfold table_of. rewrite list_elem_of_fmap. split.
    + intros (k' & [= -> ->] & Hk). rewrite sorted_perm in Hk.
      apply dict_lookup_is_Some in Hk as [v Hv]. rewrite Hv. simpl.
      by apply dict_lookup_elem_of.
    + intros Hkv. exists k. rewrite (dict_lookup_NoDup m k v) by done.
      split; [done|]. rewrite sorted_perm. apply list_elem_of_fmap. by exists (k, v).
Qed.

(** The table is in the order of [sorted]. *)
Lemma table_of_sorted m :
  StronglySorted (fun a b => str_leb (str_lower a.1) (str_lower b.1) = true) (table_of m).
Proof.
  pose proof (sorted_sorted str_lower (dict_keys m)) as Hs. unfold key_le in Hs.
  rewrite <- table_of_keys in Hs.
  induction (table_of m) as [|a t IH]; [constructor|].
  rewrite fmap_cons in Hs. apply StronglySorted_inv in Hs as [Ht Ha].
  constructor; [by apply IH|].
  rewrite Forall_fmap in Ha. exact Ha.
Qed.

(** The value of [sorted_symbol_map], by what the page holds. *)
Lemma symbol_table_eq soup :
  symbol_table soup =
  match find (lit "ul") (Some (lit "symbol-grid")) soup with
  | None => ([], Raised AttributeError)
  | Some ul =>
      match first_error (find_all (lit "li") None ul) with
      | Some e => ([], Raised e)
      | None =>
          ([], Returned (table_of (foldl symbol_step [] (find_all (lit "li") None ul))))
      end
  end.
Proof.
  unfold symbol_table, find_all_of.
  destruct (find _ _ soup) as [ul|]; [|done]. rewrite bind_ret, symbol_loop_eq.
  destruct (first_error _); [done|].
  erewrite bind_silent_returned by reflexivity. apply sorted_symbol_map_eq.
Qed.

Lemma symbol_table_silent soup : stdout (symbol_table soup) = [].
Proof.
  rewrite symbol_table_eq. destruct (find _ _ soup); [|done].
  by destruct (first_error _).
Qed.

Lemma print_lines (entries : list (str * str)) :
  for_each entries (fun entry => print (symbol_line entry))
  = (symbol_line <$> entries, Returned tt).
Proof.
  rewrite for_each_returned by (by apply Forall_forall).
  f_equal. induction entries as [|e es IH]; [done|]. simpl. f_equal. exact IH.
Qed.

(** All printing comes after the table is complete: a run prints the
    lines of the table, or raises and prints nothing. *)
Lemma symbol_run_eq soup :
  symbol_run soup =
  match result (symbol_table soup) with
  | Returned entries => (symbol_line <$> entries, Returned tt)
  | Raised e => ([], Raised e)
  end.
Proof.
  unfold symbol_run. pose proof (symbol_table_silent soup) as Hs.
  destruct (symbol_table soup) as [out [entries|e]];
    cbn [stdout fst] in Hs; subst out; cbn [result snd].
  - erewrite bind_silent_returned by reflexivity. apply print_lines.
  - done.
Qed.

Lemma symbol_run_returned soup :
  result (symbol_run soup) = Returned tt ->
  exists ul,
    find (lit "ul") (Some (lit "symbol-grid")) soup = Some ul
    /\ Forall (fun li => item_error li = None) (find_all (lit "li") None ul)
    /\ symbol_table soup
       = ([], Returned (table_of (foldl symbol_step [] (find_all (lit "li") None ul)))).
Proof.
  rewrite symbol_run_eq, symbol_table_eq.
  destruct (find _ _ soup) as [ul|]; [|done].
  destruct (first_error _) as [e|] eqn:E; [done|].
  intros _. exists ul. split; [done|]. split; [|done]. by apply first_error_None.
Qed.
End SymbolTable.

Lemma StronglySorted_lookup_lt {A} (R : A -> A -> Prop) l i j a b :
  StronglySorted R l -> i < j -> l !! i = Some a -> l !! j = Some b -> R a b.
Proof.
  intros Hl. revert i j. induction Hl as [|x l Hl IH Hx]; intros i j Hij Hi Hj; [done|].
  destruct j as [|j]; [lia|]. destruct i as [|i]; simpl in *.
  - injection Hi as <-. rewrite Forall_forall in Hx. apply Hx.
    by apply list_elem_of_lookup_2 in Hj.
  - apply (IH i j); [lia|done|done].
Qed.

(** C3. Symbol extractor: when the table is built (no list item raised),
    the run prints the lines of its entries in the order of the table,
    and for any two entries, the one printed first has the smaller or
    equal lower-cased [latex_name]. *)
Theorem symbol_output_sorted {rt : PyRuntime} (soup : node) (entries : list (str * str)) :
  result (symbol_table soup) = Returned entries ->
  symbol_run soup = (symbol_line <$> entries, Returned tt)
  /\ forall (i j : nat) (a b : str * str),
       i < j -> entries !! i = Some a -> entries !! j = Some b ->
       str_leb (str_lower a.1) (str_lower b.1) = true.
Proof.
  intros Ht. split.
  - by rewrite symbol_run_eq, Ht.
  - rewrite symbol_table_eq in Ht.
    destruct (find _ _ soup) as [ul|]; [|done].
    destruct (first_error _); [done|]. injection Ht as <-.
    intros i j a b Hij Hi Hj.
    exact (StronglySorted_lookup_lt _ _ i j a b (table_of_sorted _) Hij Hi Hj).
Qed.

Lemma symbol_output_sorted_witness :
  symbol_run (rt := Demo.runtime) (Demo.greek_page [])
  = ([lit "    ['alpha', 'alpha'],"; lit "    ['Alpha', 'Alpha'],";
      lit "    ['beta', 'beta'],"], Returned tt)
  /\ str_leb (Demo.ascii_lower (lit "\Alpha")) (Demo.ascii_lower (lit "\beta")) = true.
Proof.
  destruct (symbol_output_sorted (rt := Demo.runtime) (Demo.greek_page [])
              [(lit "\alpha", lit "alpha"); (lit "\Alpha", lit "Alpha");
               (lit "\beta", lit "beta")]) as [Hrun Hsorted].
  - vm_compute. reflexivity.
  - split; [exact Hrun|].
    apply (Hsorted 1 2 (lit "\Alpha", lit "Alpha") (lit "\beta", lit "beta"));
      [lia|reflexivity|reflexivity].
Defined.

Lemma item_error_None {rt : PyRuntime} li :
  item_error li = None <->
  exists id c n, tag_attrs li !! lit "id" = Some id
                 /\ tag_attrs li !! lit "data-codepoint" = Some c
                 /\ int_of_str c = Some n.
Proof.
  unfold item_error. split.
  - destruct (tag_attrs li !! lit "id") as [id|]; [|done].
    destruct (tag_attrs li !! lit "data-codepoint") as [c|]; [|done].
    destruct (int_of_str c) as [n|] eqn:E; [|done]. eauto 6.
  - intros (id & c & n & -> & -> & ->). done.
Qed.

(** The entries of the table, by the items they come from. *)
Lemma symbol_table_origin {rt : PyRuntime} soup entries k v :
  result (symbol_table soup) = Returned entries ->
  (k, v) ∈ entries ->
  exists ul li id,
    find (lit "ul") (Some (lit "symbol-grid")) soup = Some ul
    /\ li ∈ find_all (lit "li") None ul
    /\ tag_get li (lit "data-latex-name") = Some k
    /\ tag_attrs li !! lit "id" = Some id
    /\ v = drop 7 id.
Proof.
  rewrite symbol_table_eq.
  destruct (find _ _ soup) as [ul|]; [|done].
  destruct (first_error _) eqn:E; [done|]. intros [= <-] Hin.
  rewrite table_of_perm in Hin by (apply symbol_map_NoDup; constructor).
  apply symbol_map_origin in Hin as [[]%elem_of_nil|(li & Hli & Hk & ->)].
  apply first_error_None in E. rewrite Forall_forall in E.
  destruct (proj1 (item_error_None li) (E li Hli)) as (id & _ & _ & Hid & _).
  exists ul, li, id. unfold typst_of. by rewrite Hid.
Qed.

(** A name without quote is the part of a printed line before the
    first [', ']. *)
Lemma quote_split (a a' r r' : str) :
  39%N ∉ a -> 39%N ∉ a' ->
  a ++ lit "', '" ++ r = a' ++ lit "', '" ++ r' -> a = a'.
Proof.
  change (lit "', '") with [39%N; 44%N; 32%N; 39%N]. cbn [app].
  revert a'. induction a as [|x a IH]; intros [|y a'] Ha Ha' E.
  - done.
  - injection E as <- _. destruct Ha'. left.
  - injection E as -> _. destruct Ha. left.
  - injection E as -> E. f_equal.
    apply not_elem_of_cons in Ha as [_ Ha], Ha' as [_ Ha']. by apply IH.
Qed.

(** C2. Symbol extractor: in a run that returns, for a [latex_name] that
    some list item carries (however many do), the line
    [    ['<latex_name without its first character>', '<id[7:] of the
    first list item in document order that carries the name>'],] is
    printed, at one position; no other position of the output is the line
    of an entry with that name; every printed line is the line of the
    entry at its position; and when the names of the page start with a
    backslash and hold no quote, no other printed line has that name
    between its first quotes, whatever identifier follows. *)
Theorem symbol_first_occurrence_wins {rt : PyRuntime}
    (soup ul : node) (pre post : list node) (li : node) (latex id : str) :
  find (lit "ul") (Some (lit "symbol-grid")) soup = Some ul ->
  find_all (lit "li") None ul = pre ++ li :: post ->
  Forall (fun li' => tag_get li' (lit "data-latex-name") <> Some latex) pre ->
  tag_get li (lit "data-latex-name") = Some latex ->
  tag_attrs li !! lit "id" = Some id ->
  result (symbol_run soup) = Returned tt ->
  exists (entries : list (str * str)) (i : nat),
    result (symbol_table soup) = Returned entries
    /\ stdout (symbol_run soup) = symbol_line <$> entries
    /\ entries !! i = Some (latex, drop 7 id)
    /\ (forall j v, entries !! j = Some (latex, v) -> j = i)
    /\ stdout (symbol_run soup) !! i
       = Some (lit "    ['" ++ drop 1 latex ++ lit "', '" ++ drop 7 id ++ lit "'],")
    /\ (forall j line,
          stdout (symbol_run soup) !! j = Some line ->
          exists k v,
            entries !! j = Some (k, v)
            /\ line = lit "    ['" ++ drop 1 k ++ lit "', '" ++ v ++ lit "'],")
    /\ ((forall li' k,
           li' ∈ pre ++ li :: post ->
           tag_get li' (lit "data-latex-name") = Some k ->
           exists k', k = 92%N :: k' /\ 39%N ∉ k') ->
        forall j v,
          stdout (symbol_run soup) !! j
          = Some (lit "    ['" ++ drop 1 latex ++ lit "', '" ++ v ++ lit "'],") ->
          j = i).
Proof.
  intros Hul Hl Hpre Hli Hid Hrun.
  destruct (symbol_run_returned soup Hrun) as (ul' & Hul' & _ & Ht).
  rewrite Hul in Hul'. injection Hul' as <-.
  set (m := foldl symbol_step [] (find_all (lit "li") None ul)) in *.
  assert (NoDup m.*1) as Hnd by (apply symbol_map_NoDup; constructor).
  assert (dict_lookup m latex = Some (drop 7 id)) as Hm.
  { unfold m. rewrite Hl. rewrite (symbol_map_first pre li post [] latex); try done.
    - unfold typst_of. by rewrite Hid.
    - apply not_elem_of_nil. }
  pose proof (table_of_perm m Hnd) as Hperm.
  assert ((latex, drop 7 id) ∈ table_of m) as Hin.
  { rewrite Hperm. by apply dict_lookup_elem_of. }
  apply list_elem_of_lookup in Hin as [i Hi].
  assert (forall j v, table_of m !! j = Some (latex, v) -> j = i) as Huniq.
  { intros j v Hj.
    assert (NoDup (table_of m).*1) as Hnd' by (by rewrite Hperm).
    apply (NoDup_lookup _ j i latex Hnd').
    - by rewrite list_lookup_fmap, Hj.
    - by rewrite list_lookup_fmap, Hi. }
  assert (stdout (symbol_run soup) = symbol_line <$> table_of m) as Hout
    by (by rewrite symbol_run_eq, Ht).
  assert (forall j line,
            stdout (symbol_run soup) !! j = Some line ->
            exists k v, table_of m !! j = Some (k, v)
              /\ line = lit "    ['" ++ drop 1 k ++ lit "', '" ++ v ++ lit "'],")
    as Hlines.
  { intros j line. rewrite Hout, list_lookup_fmap.
    destruct (table_of m !! j) as [[k v]|]; [|done]. intros [= <-]. by exists k, v. }
  exists (table_of m), i. rewrite Ht. cbn [result snd].
  split; [done|]. split; [done|]. split; [done|]. split; [done|].
  split; [by rewrite Hout, list_lookup_fmap, Hi|]. split; [done|].
  intros Hnames j v Hj.
  destruct (Hlines j _ Hj) as (k & v' & Hjk & E).
  assert ((k, v') ∈ table_of m) as Hkin by (by eapply list_elem_of_lookup_2).
  destruct (symbol_table_origin soup (table_of m) k v') as
    (ul' & li' & id' & Hul' & Hli' & Hk & _); [by rewrite Ht|done|].
  rewrite Hul in Hul'. injection Hul' as <-. rewrite Hl in Hli'.
  destruct (Hnames li' k Hli' Hk) as (k0 & -> & Hq).
  destruct (Hnames li latex) as (l0 & -> & Hq0); [|done|].
  { apply elem_of_app. right. left. }
  apply app_inv_head in E. cbn [drop] in E. rewrite !drop_0 in E.
  apply quote_split in E; [|done..]. subst l0.
  by apply (Huniq j v').
Qed.

Lemma symbol_first_occurrence_wins_witness :
  exists i : nat,
    stdout (symbol_run (rt := Demo.runtime) (Demo.equiv_page true)) !! i
    = Some (lit "    ['equiv', 'equal'],")
    /\ forall j v,
         stdout (symbol_run (rt := Demo.runtime) (Demo.equiv_page true)) !! j
         = Some (lit "    ['" ++ lit "equiv" ++ lit "', '" ++ v ++ lit "'],") ->
         j = i.
Proof.
  destruct (symbol_first_occurrence_wins (rt := Demo.runtime) (Demo.equiv_page true)
              (Demo.symbol_grid (Demo.equiv_items true)) []
              [Demo.symbol_item (lit "symbol-equiv.triple") (lit "\equiv") (lit "8803")]
              (Demo.symbol_item (lit "symbol-equal") (lit "\equiv") (lit "8801"))
              (lit "\equiv") (lit "symbol-equal"))
    as (entries & i & _ & _ & _ & _ & Hline & _ & Hone).
  - vm_compute. reflexivity.
  - vm_compute. reflexivity.
  - constructor.
  - vm_compute. reflexivity.
  - vm_compute. reflexivity.
  - vm_compute. reflexivity.
  - exists i. split; [exact Hline|]. apply Hone.
    intros li' k [->|[->|[]%elem_of_nil]%elem_of_cons]%elem_of_cons Hk;
      vm_compute in Hk; injection Hk as <-;
      (exists (lit "equiv"); split; [reflexivity|]);
      apply (bool_decide_unpack _); by vm_compute.
Defined.

(** Names that differ in their first character only are printed alike:
    here two entries give the same line. *)
Example symbol_twin_lines :
  symbol_run (rt := Demo.runtime) Demo.twin_page
  = ([lit "    ['equiv', 'equal'],"; lit "    ['equiv', 'equal'],"], Returned tt).
Proof. by vm_compute. Qed.

(** C1, on the code.  Symbol extractor: every printed line is four
    spaces, then [['], the [data-latex-name] of a list item without its
    first character, [', '], the [id] of that item without its first seven
    characters, and ['],]; and for the two items of the example, each
    with a [data-codepoint] that [int] accepts, the output is the one line
    [    ['equiv', 'equal'],]. *)
Theorem symbol_line_format {rt : PyRuntime} (soup : node) :
  (forall line, line ∈ stdout (symbol_run soup) ->
     exists ul li latex id,
       find (lit "ul") (Some (lit "symbol-grid")) soup = Some ul
       /\ li ∈ find_all (lit "li") None ul
       /\ tag_get li (lit "data-latex-name") = Some latex
       /\ tag_attrs li !! lit "id" = Some id
       /\ line = lit "    ['" ++ drop 1 latex ++ lit "', '" ++ drop 7 id ++ lit "'],")
  /\ (forall ul li1 li2 c1 c2 n1 n2,
        find (lit "ul") (Some (lit "symbol-grid")) soup = Some ul ->
        find_all (lit "li") None ul = [li1; li2] ->
        tag_attrs li1 !! lit "id" = Some (lit "symbol-equal") ->
        tag_get li1 (lit "data-latex-name") = Some (lit "\equiv") ->
        tag_attrs li1 !! lit "data-codepoint" = Some c1 ->
        int_of_str c1 = Some n1 ->
        tag_attrs li2 !! lit "id" = Some (lit "symbol-equiv.triple") ->
        tag_get li2 (lit "data-latex-name") = Some (lit "\equiv") ->
        tag_attrs li2 !! lit "data-codepoint" = Some c2 ->
        int_of_str c2 = Some n2 ->
        symbol_run soup = ([lit "    ['equiv', 'equal'],"], Returned tt)).
Proof.
  split.
  - intros line. rewrite symbol_run_eq.
    destruct (result (symbol_table soup)) as [entries|e] eqn:Ht;
      [|by intros ?%elem_of_nil].
    simpl. intros ([k v] & -> & Hin)%list_elem_of_fmap.
    destruct (symbol_table_origin soup entries k v Ht Hin)
      as (ul & li & id & ? & ? & ? & ? & ->).
    by exists ul, li, k, id.
  - intros ul li1 li2 c1 c2 n1 n2 Hul Hl Hid1 Hn1 Hc1 Hi1 Hid2 Hn2 Hc2 Hi2.
    rewrite symbol_run_eq, symbol_table_eq, Hul, Hl.
    unfold first_error. cbn [omap list_omap]. unfold item_error.
    rewrite Hid1, Hc1, Hi1, Hid2, Hc2, Hi2. cbn [head foldl].
    unfold symbol_step at 2. rewrite Hn1, Hid1. cbn [dict_contains].
    unfold symbol_step. rewrite Hn2, Hid2. reflexivity.
Qed.

Lemma symbol_line_format_witness :
  (exists ul li latex id,
     find (lit "ul") (Some (lit "symbol-grid")) (Demo.equiv_page true) = Some ul
     /\ li ∈ find_all (lit "li") None ul
     /\ tag_get li (lit "data-latex-name") = Some latex
     /\ tag_attrs li !! lit "id" = Some id
     /\ lit "    ['equiv', 'equal'],"
        = lit "    ['" ++ drop 1 latex ++ lit "', '" ++ drop 7 id ++ lit "'],")
  /\ symbol_run (rt := Demo.runtime) (Demo.equiv_page true)
     = ([lit "    ['equiv', 'equal'],"], Returned tt).
Proof.
  destruct (symbol_line_format (rt := Demo.runtime) (Demo.equiv_page true))
    as [Hline Hexample].
  split.
  - apply Hline. vm_compute. left.
  - apply (Hexample (Demo.symbol_grid (Demo.equiv_items true))
             (Demo.symbol_item (lit "symbol-equal") (lit "\equiv") (lit "8801"))
             (Demo.symbol_item (lit "symbol-equiv.triple") (lit "\equiv") (lit "8803"))
             (lit "8801") (lit "8803") 8801%Z 8803%Z);
      vm_compute; reflexivity.
Defined.

(** C1 as stated fails.  On the page of the example, with the code
    points the items need, the line printed starts with four spaces and
    is not [['equiv', 'equal'],]; and when the two items carry nothing
    but the [id] and the [data-latex-name] of the example, the run raises
    [KeyError] on [data-codepoint] and prints no line at all. *)
Lemma symbol_line_format_counterexample :
  stdout (symbol_run (rt := Demo.runtime) (Demo.equiv_page true))
  = [lit "    ['equiv', 'equal'],"]
  /\ stdout (symbol_run (rt := Demo.runtime) (Demo.equiv_page true))
     <> [lit "['equiv', 'equal'],"]
  /\ symbol_run (rt := Demo.runtime) (Demo.equiv_page false)
     = ([], Raised (KeyError (lit "data-codepoint"))).
Proof.
  split; [by vm_compute|]. split; [by vm_compute|]. by vm_compute.
Qed.

Lemma item_error_kind {rt : PyRuntime} li e :
  item_error li = Some e ->
  e = KeyError (lit "id") \/ e = KeyError (lit "data-codepoint") \/ e = ValueError.
Proof.
  unfold item_error.
  destruct (tag_attrs li !! lit "id"); [|intros [= <-]; auto].
  destruct (tag_attrs li !! lit "data-codepoint") as [c|]; [|intros [= <-]; auto].
  destruct (int_of_str c); [done|intros [= <-]; auto].
Qed.

Lemma first_error_app {rt : PyRuntime} l1 l2 :
  first_error (l1 ++ l2)
  = match first_error l1 with Some e => Some e | None => first_error l2 end.
Proof.
  unfold first_error. rewrite omap_app.
  by destruct (omap item_error l1).
Qed.

Lemma first_error_cons {rt : PyRuntime} li l :
  first_error (li :: l)
  = match item_error li with Some e => Some e | None => first_error l end.
Proof. unfold first_error. cbn [omap list_omap]. by destruct (item_error li). Qed.

Lemma first_error_elem_of {rt : PyRuntime} l li :
  li ∈ l -> item_error li <> None -> exists e, first_error l = Some e.
Proof.
  intros Hli Hbad. destruct (first_error l) as [e|] eqn:E; [by exists e|].
  apply first_error_None in E. rewrite Forall_forall in E. destruct Hbad. by apply E.
Qed.

(** C4. Symbol extractor: a list item without [data-latex-name] makes
    no mapping entry and no printed line: its round of the loop, when it
    returns, returns [symbol_map] unchanged; the page without the item
    has the same table and the same output as the page with it (the item
    passing its reads of [id] and [data-codepoint]); and every entry of
    the table has for key the [data-latex-name] of a list item. *)
Theorem symbol_items_without_latex_name {rt : PyRuntime} :
  (forall (m m' : dict) (li : node),
     tag_get li (lit "data-latex-name") = None ->
     result (symbol_body m li) = Returned m' -> m' = m)
  /\ (forall (soup soup' ul ul' : node) pre li post id c n,
        find (lit "ul") (Some (lit "symbol-grid")) soup = Some ul ->
        find (lit "ul") (Some (lit "symbol-grid")) soup' = Some ul' ->
        find_all (lit "li") None ul = pre ++ li :: post ->
        find_all (lit "li") None ul' = pre ++ post ->
        tag_get li (lit "data-latex-name") = None ->
        tag_attrs li !! lit "id" = Some id ->
        tag_attrs li !! lit "data-codepoint" = Some c ->
        int_of_str c = Some n ->
        symbol_table soup' = symbol_table soup /\ symbol_run soup' = symbol_run soup)
  /\ (forall (soup : node) entries k v,
        result (symbol_table soup) = Returned entries ->
        (k, v) ∈ entries ->
        exists ul li,
          find (lit "ul") (Some (lit "symbol-grid")) soup = Some ul
          /\ li ∈ find_all (lit "li") None ul
          /\ tag_get li (lit "data-latex-name") = Some k).
Proof.
  split; [|split].
  - intros m m' li Hli. rewrite symbol_body_eq.
    destruct (item_error li); [done|]. simpl. intros [= <-].
    by apply symbol_step_no_latex.
  - intros soup soup' ul ul' pre li post id c n Hul Hul' Hl Hl' Hli Hid Hc Hn.
    assert (item_error li = None) as Hok by (apply item_error_None; eauto 6).
    assert (symbol_table soup' = symbol_table soup) as Ht.
    { rewrite !symbol_table_eq, Hul, Hul', Hl, Hl'.
      rewrite !first_error_app, first_error_cons, Hok.
      rewrite !foldl_app. cbn [foldl]. by rewrite (symbol_step_no_latex _ li Hli). }
    split; [done|]. by rewrite !symbol_run_eq, Ht.
  - intros soup entries k v Ht Hin.
    destruct (symbol_table_origin soup entries k v Ht Hin)
      as (ul & li & id & ? & ? & ? & _). by exists ul, li.
Qed.

Lemma symbol_items_without_latex_name_witness :
  (result (symbol_body (rt := Demo.runtime) [(lit "\beta", lit "beta")] Demo.plus_item)
   = Returned [(lit "\beta", lit "beta")])
  /\ (symbol_table (rt := Demo.runtime) (Demo.greek_page [])
      = symbol_table (rt := Demo.runtime) (Demo.greek_page [Demo.plus_item])
      /\ symbol_run (rt := Demo.runtime) (Demo.greek_page [])
         = symbol_run (rt := Demo.runtime) (Demo.greek_page [Demo.plus_item]))
  /\ (exists ul li,
        find (lit "ul") (Some (lit "symbol-grid")) (Demo.greek_page [Demo.plus_item])
        = Some ul
        /\ li ∈ find_all (lit "li") None ul
        /\ tag_get li (lit "data-latex-name") = Some (lit "\Alpha")).
Proof.
  destruct (symbol_items_without_latex_name (rt := Demo.runtime)) as (Hbody & Hpage & Hkey).
  split; [|split].
  - destruct (result (symbol_body (rt := Demo.runtime)
                        [(lit "\beta", lit "beta")] Demo.plus_item)) as [m'|e] eqn:E.
    + f_equal. apply (Hbody _ m' Demo.plus_item); [by vm_compute|exact E].
    + by vm_compute in E.
  - apply (Hpage (Demo.greek_page [Demo.plus_item]) (Demo.greek_page [])
             (Demo.symbol_grid
                [Demo.symbol_item (lit "symbol-beta") (lit "\beta") (lit "946");
                 Demo.plus_item;
                 Demo.symbol_item (lit "symbol-alpha") (lit "\alpha") (lit "945");
                 Demo.symbol_item (lit "symbol-Alpha") (lit "\Alpha") (lit "913")])
             (Demo.symbol_grid
                [Demo.symbol_item (lit "symbol-beta") (lit "\beta") (lit "946");
                 Demo.symbol_item (lit "symbol-alpha") (lit "\alpha") (lit "945");
                 Demo.symbol_item (lit "symbol-Alpha") (lit "\Alpha") (lit "913")])
             [Demo.symbol_item (lit "symbol-beta") (lit "\beta") (lit "946")]
             Demo.plus_item
             [Demo.symbol_item (lit "symbol-alpha") (lit "\alpha") (lit "945");
              Demo.symbol_item (lit "symbol-Alpha") (lit "\Alpha") (lit "913")]
             (lit "symbol-plus") (lit "43") 43%Z); vm_compute; reflexivity.
  - apply (Hkey (Demo.greek_page [Demo.plus_item])
             [(lit "\alpha", lit "alpha"); (lit "\Alpha", lit "Alpha");
              (lit "\beta", lit "beta")] (lit "\Alpha") (lit "Alpha")).
    + vm_compute. reflexivity.
    + right. left.
Defined.

(** C9. Symbol extractor: the round of every list item reads [id], then
    reads [data-codepoint], then parses it, before [data-latex-name] is
    looked at; so a list item of the grid, with or without
    [data-latex-name], whose [id] or [data-codepoint] is missing, or whose
    code point [int] rejects, makes the run raise [KeyError] or
    [ValueError] with nothing printed. *)
Theorem symbol_reads_come_first {rt : PyRuntime} :
  (forall (m : dict) (li : node),
     tag_attrs li !! lit "id" = None ->
     symbol_body m li = ([], Raised (KeyError (lit "id"))))
  /\ (forall (m : dict) (li : node) id,
        tag_attrs li !! lit "id" = Some id ->
        tag_attrs li !! lit "data-codepoint" = None ->
        symbol_body m li = ([], Raised (KeyError (lit "data-codepoint"))))
  /\ (forall (m : dict) (li : node) id c,
        tag_attrs li !! lit "id" = Some id ->
        tag_attrs li !! lit "data-codepoint" = Some c ->
        int_of_str c = None ->
        symbol_body m li = ([], Raised ValueError))
  /\ (forall (soup ul li : node),
        find (lit "ul") (Some (lit "symbol-grid")) soup = Some ul ->
        li ∈ find_all (lit "li") None ul ->
        tag_attrs li !! lit "id" = None
        \/ tag_attrs li !! lit "data-codepoint" = None
        \/ (exists c, tag_attrs li !! lit "data-codepoint" = Some c
                      /\ int_of_str c = None) ->
        stdout (symbol_run soup) = []
        /\ exists e, result (symbol_run soup) = Raised e
             /\ (e = KeyError (lit "id") \/ e = KeyError (lit "data-codepoint")
                 \/ e = ValueError)).
Proof.
  split; [|split; [|split]].
  - intros m li Hid. rewrite symbol_body_eq. unfold item_error. by rewrite Hid.
  - intros m li id Hid Hc. rewrite symbol_body_eq. unfold item_error. by rewrite Hid, Hc.
  - intros m li id c Hid Hc Hn. rewrite symbol_body_eq. unfold item_error.
    by rewrite Hid, Hc, Hn.
  - intros soup ul li Hul Hli Hmiss.
    assert (item_error li <> None) as Hbad.
    { rewrite item_error_None. intros (id & c & n & Hid & Hc & Hn).
      destruct Hmiss as [E|[E|(c' & E & Hn')]]; congruence. }
    destruct (first_error_elem_of _ li Hli Hbad) as [e He].
    rewrite symbol_run_eq, symbol_table_eq, Hul, He. split; [done|].
    exists e. split; [done|].
    apply first_error_Some in He as (pre & bad & post & _ & _ & He).
    by apply item_error_kind in He.
Qed.

Lemma symbol_reads_come_first_witness :
  symbol_body (rt := Demo.runtime) [] Demo.anonymous_item
  = ([], Raised (KeyError (lit "id")))
  /\ symbol_body (rt := Demo.runtime) [] (Demo.li [(lit "id", lit "symbol-plus")])
     = ([], Raised (KeyError (lit "data-codepoint")))
  /\ symbol_body (rt := Demo.runtime) [] Demo.miscoded_item = ([], Raised ValueError)
  /\ (stdout (symbol_run (rt := Demo.runtime) (Demo.greek_page [Demo.miscoded_item])) = []
      /\ exists e,
           result (symbol_run (rt := Demo.runtime) (Demo.greek_page [Demo.miscoded_item]))
           = Raised e
           /\ (e = KeyError (lit "id") \/ e = KeyError (lit "data-codepoint")
               \/ e = ValueError)).
Proof.
  destruct (symbol_reads_come_first (rt := Demo.runtime)) as (Hid & Hcp & Hint & Hrun).
  split; [|split; [|split]].
  - apply Hid. by vm_compute.
  - apply (Hcp _ _ (lit "symbol-plus")); by vm_compute.
  - apply (Hint _ _ (lit "symbol-equiv") (lit "U+2261")); by vm_compute.
  - apply (Hrun (Demo.greek_page [Demo.miscoded_item])
             (Demo.symbol_grid
                [Demo.symbol_item (lit "symbol-beta") (lit "\beta") (lit "946");
                 Demo.miscoded_item;
                 Demo.symbol_item (lit "symbol-alpha") (lit "\alpha") (lit "945");
                 Demo.symbol_item (lit "symbol-Alpha") (lit "\Alpha") (lit "913")])
             Demo.miscoded_item).
    + by vm_compute.
    + right. left.
    + right. right. exists (lit "U+2261"). split; by vm_compute.
Defined.

(** C8, on the code.  Symbol extractor: without a symbol-grid list,
    [find] returns [None] and the call of [find_all] on it raises
    [AttributeError]; when the first list item that does not pass its
    reads has an [id] and a [data-codepoint] that [int] rejects, the run
    raises [ValueError]; and two pages whose list items agree on [id] and
    [data-latex-name] and differ only in code points that [int] accepts
    give the same run: the parsed code point is not in the output. *)
Theorem symbol_failures {rt : PyRuntime} (soup : node) :
  (find (lit "ul") (Some (lit "symbol-grid")) soup = None ->
   symbol_run soup = ([], Raised AttributeError))
  /\ (forall ul pre bad post id c,
        find (lit "ul") (Some (lit "symbol-grid")) soup = Some ul ->
        find_all (lit "li") None ul = pre ++ bad :: post ->
        Forall (fun li => item_error li = None) pre ->
        tag_attrs bad !! lit "id" = Some id ->
        tag_attrs bad !! lit "data-codepoint" = Some c ->
        int_of_str c = None ->
        symbol_run soup = ([], Raised ValueError))
  /\ (forall soup' ul ul',
        find (lit "ul") (Some (lit "symbol-grid")) soup = Some ul ->
        find (lit "ul") (Some (lit "symbol-grid")) soup' = Some ul' ->
        Forall2 (fun a b =>
                   tag_attrs a !! lit "id" = tag_attrs b !! lit "id"
                   /\ tag_get a (lit "data-latex-name") = tag_get b (lit "data-latex-name")
                   /\ item_error a = None /\ item_error b = None)
                (find_all (lit "li") None ul) (find_all (lit "li") None ul') ->
        symbol_run soup' = symbol_run soup).
Proof.
  split; [|split].
  - intros Hul. by rewrite symbol_run_eq, symbol_table_eq, Hul.
  - intros ul pre bad post id c Hul Hl Hpre Hid Hc Hn.
    rewrite symbol_run_eq, symbol_table_eq, Hul, Hl, first_error_app.
    apply first_error_None in Hpre. rewrite Hpre, first_error_cons.
    unfold item_error. by rewrite Hid, Hc, Hn.
  - intros soup' ul ul' Hul Hul' Hl.
    rewrite !symbol_run_eq, !symbol_table_eq, Hul, Hul'.
    assert (first_error (find_all (lit "li") None ul) = None) as ->.
    { apply first_error_None. eapply Forall2_Forall_l; [exact Hl|].
      apply Forall_forall. by intros b _ a (_ & _ & ? & _). }
    assert (first_error (find_all (lit "li") None ul') = None) as ->.
    { apply first_error_None. eapply Forall2_Forall_r; [exact Hl|].
      apply Forall_forall. by intros a _ b (_ & _ & _ & ?). }
    simpl. do 3 f_equal. generalize (@nil (str * str)).
    induction Hl as [|a b la lb (Hid & Hlatex & _) _ IH]; intros m; [done|].
    cbn [foldl]. rewrite IH. f_equal. unfold symbol_step. by rewrite Hid, Hlatex.
Qed.

Lemma symbol_failures_witness :
  symbol_run (rt := Demo.runtime) (Demo.page []) = ([], Raised AttributeError)
  /\ symbol_run (rt := Demo.runtime) (Demo.greek_page [Demo.miscoded_item])
     = ([], Raised ValueError)
  /\ symbol_run (rt := Demo.runtime) Demo.recoded_page
     = symbol_run (rt := Demo.runtime) (Demo.equiv_page true).
Proof.
  split; [|split].
  - apply (symbol_failures (rt := Demo.runtime) (Demo.page [])). by vm_compute.
  - apply (proj1 (proj2 (symbol_failures (rt := Demo.runtime)
                           (Demo.greek_page [Demo.miscoded_item])))
             (Demo.symbol_grid
                [Demo.symbol_item (lit "symbol-beta") (lit "\beta") (lit "946");
                 Demo.miscoded_item;
                 Demo.symbol_item (lit "symbol-alpha") (lit "\alpha") (lit "945");
                 Demo.symbol_item (lit "symbol-Alpha") (lit "\Alpha") (lit "913")])
             [Demo.symbol_item (lit "symbol-beta") (lit "\beta") (lit "946")]
             Demo.miscoded_item
             [Demo.symbol_item (lit "symbol-alpha") (lit "\alpha") (lit "945");
              Demo.symbol_item (lit "symbol-Alpha") (lit "\Alpha") (lit "913")]
             (lit "symbol-equiv") (lit "U+2261")).
    + by vm_compute.
    + by vm_compute.
    + constructor; [by vm_compute|constructor].
    + by vm_compute.
    + by vm_compute.
    + by vm_compute.
  - apply (proj2 (proj2 (symbol_failures (rt := Demo.runtime) (Demo.equiv_page true)))
             Demo.recoded_page
             (Demo.symbol_grid (Demo.equiv_items true))
             (Demo.symbol_grid
                [ Demo.symbol_item (lit "symbol-equal") (lit "\equiv") (lit "1");
                  Demo.symbol_item (lit "symbol-equiv.triple") (lit "\equiv") (lit "2") ])).
    + by vm_compute.
    + by vm_compute.
    + repeat constructor; by vm_compute.
Defined.

(** C8 as stated fails.  A page without a symbol-grid list raises
    [AttributeError], not [IndexError]; and a list item whose
    [data-codepoint] is present and not a number, but which has no [id],
    raises [KeyError] on [id], not [ValueError]. *)
Lemma symbol_failures_counterexample :
  find (lit "ul") (Some (lit "symbol-grid")) (Demo.page []) = None
  /\ result (symbol_run (rt := Demo.runtime) (Demo.page [])) = Raised AttributeError
  /\ result (symbol_run (rt := Demo.runtime) (Demo.page [])) <> Raised IndexError
  /\ tag_attrs Demo.anonymous_item !! lit "data-codepoint" = Some (lit "U+2261")
  /\ Demo.decimal_int (lit "U+2261") = None
  /\ result (symbol_run (rt := Demo.runtime)
               (Demo.page [Demo.symbol_grid [Demo.anonymous_item]]))
     = Raised (KeyError (lit "id")).
Proof. repeat split; by vm_compute. Qed.

(** ** The relations and the functions agree *)

Section RunsFacts.
Context {rt : PyRuntime}.

Lemma for_each_cons {A} (body : A -> Py unit) x l :
  for_each (x :: l) body =
  match body x with
  | (o, Returned _) => (o ++ stdout (for_each l body), result (for_each l body))
  | (o, Raised e) => (o, Raised e)
  end.
Proof.
  cbn [for_each]. destruct (body x) as [o [[]|e]]; [|done].
  by erewrite bind_returned by reflexivity.
Qed.

(** A run of the shorthand loop adds to the output what [for_each]
    prints, and ends as [for_each] ends. *)
Lemma shorthand_loop_runs_sound l out r :
  shorthand_loop_runs l out r ->
  r = (out ++ stdout (for_each l shorthand_body), result (for_each l shorthand_body)).
Proof.
  induction 1 as [out|li l out Hid|li l out id Hid Hsh|li l out id raw Hid Hsh Hun
                 |li l out id raw shorthand r Hid Hsh Hun _ IH];
    rewrite ?for_each_cons, ?shorthand_body_eq, ?Hid, ?Hsh, ?Hun; simpl.
  - by rewrite app_nil_r.
  - by rewrite app_nil_r.
  - by rewrite app_nil_r.
  - by rewrite app_nil_r.
  - rewrite IH. by rewrite <- app_assoc.
Qed.

Lemma shorthand_loop_runs_complete l out :
  shorthand_loop_runs l out
    (out ++ stdout (for_each l shorthand_body), result (for_each l shorthand_body)).
Proof.
  revert out. induction l as [|li l IH]; intros out.
  - simpl. rewrite app_nil_r. constructor.
  - rewrite for_each_cons, shorthand_body_eq.
    destruct (tag_attrs li !! lit "id") as [id|] eqn:Hid.
    + destruct (tag_attrs li !! lit "data-math-shorthand") as [raw|] eqn:Hsh.
      * destruct (html_unescape raw) as [shorthand|] eqn:Hun.
        -- simpl. eapply shorthand_loop_print; [done|done|done|].
           specialize (IH (out ++ [lit "['" ++ drop 7 id ++ lit "', '"
                                     ++ shorthand ++ lit "'],"])).
           by rewrite <- app_assoc in IH.
        -- simpl. rewrite app_nil_r. by eapply shorthand_loop_not_unescaped.
      * simpl. rewrite app_nil_r. by eapply shorthand_loop_no_shorthand.
    + simpl. rewrite app_nil_r. by apply shorthand_loop_no_id.
Qed.

(** The runs of the shorthand script are the one [shorthand_run] computes. *)
Lemma shorthand_runs_iff soup r : shorthand_runs soup r <-> r = shorthand_run soup.
Proof.
  split.
  - intros [Hul|ul r' Hul Hloop].
    + by rewrite shorthand_run_no_grid.
    + rewrite (shorthand_run_loop soup ul Hul).
      apply shorthand_loop_runs_sound in Hloop as ->. simpl.
      by destruct (for_each _ _).
  - intros ->.
    destruct (find_all (lit "ul") (Some (lit "symbol-grid")) soup !! 1) as [ul|] eqn:Hul.
    + rewrite (shorthand_run_loop soup ul Hul). apply (shorthand_runs_loop soup ul); [done|].
      pose proof (shorthand_loop_runs_complete (find_all (lit "li") None ul) []) as Hr.
      simpl in Hr. by destruct (for_each _ _).
    + rewrite (shorthand_run_no_grid soup Hul). by constructor.
Qed.

Lemma symbol_loop_result_cons li l m :
  result (for_fold (li :: l) symbol_body m) =
  match item_error li with
  | Some e => Raised e
  | None => result (for_fold l symbol_body (symbol_step m li))
  end.
Proof.
  rewrite !symbol_loop_eq, first_error_cons.
  destruct (item_error li); [done|]. by destruct (first_error l).
Qed.

Lemma symbol_loop_runs_sound l m r :
  symbol_loop_runs l m r -> r = result (for_fold l symbol_body m).
Proof.
  induction 1 as [m|li l m Hid|li l m id Hid Hc|li l m id c Hid Hc Hn
                 |li l m id c n r Hid Hc Hn Hlatex _ IH
                 |li l m id c n latex r Hid Hc Hn Hlatex Hin _ IH
                 |li l m id c n latex r Hid Hc Hn Hlatex Hin _ IH];
    [done|rewrite symbol_loop_result_cons; unfold item_error, symbol_step;
          rewrite ?Hid, ?Hc, ?Hn, ?Hlatex..]; try done.
  - by rewrite (proj2 (dict_contains_spec latex m) Hin).
  - destruct (dict_contains latex m) eqn:E; [|done].
    by apply dict_contains_spec in E.
Qed.

Lemma symbol_loop_runs_complete l m :
  symbol_loop_runs l m (result (for_fold l symbol_body m)).
Proof.
  revert m. induction l as [|li l IH]; intros m; [constructor|].
  rewrite symbol_loop_result_cons. unfold item_error, symbol_step.
  destruct (tag_attrs li !! lit "id") as [id|] eqn:Hid;
    [|by apply symbol_loop_no_id].
  destruct (tag_attrs li !! lit "data-codepoint") as [c|] eqn:Hc;
    [|by eapply symbol_loop_no_codepoint].
  destruct (int_of_str c) as [n|] eqn:Hn; [|by eapply symbol_loop_not_int].
  destruct (tag_get li (lit "data-latex-name")) as [latex|] eqn:Hlatex;
    [|by eapply symbol_loop_no_latex].
  destruct (dict_contains latex m) eqn:E.
  - apply dict_contains_spec in E. by eapply symbol_loop_known.
  - eapply symbol_loop_new; try done.
    intros Hin%dict_contains_spec. congruence.
Qed.

(** [sorted] keeps Python's promise, and the promise leaves no choice. *)
Lemma sorted_stable_sort_of {A} (key : A -> str) l : stable_sort_of key l (sorted key l).
Proof. split; [apply sorted_sorted|intros k; apply sorted_stable]. Qed.

Lemma stable_sort_of_unique {A} (key : A -> str) l l' :
  stable_sort_of key l l' -> l' = sorted key l.
Proof.
  intros [Hs Hf]. apply (stable_sorted_unique key); [done|apply sorted_sorted|].
  intros k. by rewrite Hf, sorted_stable.
Qed.

Lemma comprehension_unique (m : dict) ks es :
  Forall2 (fun key entry => exists v, dict_lookup m key = Some v /\ entry = (key, v)) ks es ->
  es = (fun key => (key, default [] (dict_lookup m key))) <$> ks.
Proof.
  induction 1 as [|k e ks es (v & Hv & ->) _ IH]; [done|].
  rewrite fmap_cons, Hv, IH. done.
Qed.

(** The runs of the symbol script are the one [symbol_run] computes. *)
Lemma symbol_runs_iff soup r : symbol_runs soup r <-> r = symbol_run soup.
Proof.
  rewrite symbol_run_eq, symbol_table_eq. split.
  - intros [Hul|ul e Hul Hloop|ul m ks key Hul Hloop Hks Hkey Hnone
           |ul m ks es Hul Hloop Hks Hes]; rewrite Hul; try done;
      apply symbol_loop_runs_sound in Hloop; rewrite symbol_loop_eq in Hloop;
      destruct (first_error _); simplify_eq/=; try done.
    + apply stable_sort_of_unique in Hks as ->.
      rewrite sorted_perm in Hkey. by apply dict_lookup_None in Hnone.
    + apply stable_sort_of_unique in Hks as ->.
      by rewrite (comprehension_unique _ _ _ Hes).
  - intros ->. destruct (find _ _ soup) as [ul|] eqn:Hul; [|by constructor].
    pose proof (symbol_loop_runs_complete (find_all (lit "li") None ul) []) as Hloop.
    rewrite symbol_loop_eq in Hloop.
    destruct (first_error _) as [e|]; simpl in *.
    + by apply (symbol_runs_raised soup ul).
    + eapply (symbol_runs_printed soup ul); [done|exact Hloop|apply sorted_stable_sort_of|].
      apply Forall2_fmap_r, Forall_Forall2_diag, Forall_forall. intros k Hk.
      rewrite sorted_perm in Hk. apply dict_lookup_is_Some in Hk as [v Hv].
      exists v. by rewrite Hv.
Qed.
End RunsFacts.

(** C10. Both extractors: two runs on the same text end alike and leave
    the same text on standard output, whatever stable sort each run
    uses; and each script has a run on every text, the one
    [shorthand_main] and [symbol_main] compute. *)
Theorem extractors_deterministic {rt : PyRuntime} (html_text1 html_text2 : str) :
  html_text1 = html_text2 ->
  (forall r1 r2,
     shorthand_runs (BeautifulSoup html_text1) r1 ->
     shorthand_runs (BeautifulSoup html_text2) r2 ->
     stdout_text (stdout r1) = stdout_text (stdout r2) /\ result r1 = result r2)
  /\ (forall r1 r2,
        symbol_runs (BeautifulSoup html_text1) r1 ->
        symbol_runs (BeautifulSoup html_text2) r2 ->
        stdout_text (stdout r1) = stdout_text (stdout r2) /\ result r1 = result r2)
  /\ shorthand_runs (BeautifulSoup html_text1) (shorthand_main html_text1)
  /\ symbol_runs (BeautifulSoup html_text1) (symbol_main html_text1)
  /\ stdout_text (stdout (shorthand_main html_text1))
     = stdout_text (stdout (shorthand_main html_text2))
  /\ stdout_text (stdout (symbol_main html_text1))
     = stdout_text (stdout (symbol_main html_text2)).
Proof.
  intros <-. split; [|split; [|split; [|split]]].
  - intros r1 r2 H1 H2. apply shorthand_runs_iff in H1, H2. by subst.
  - intros r1 r2 H1 H2. apply symbol_runs_iff in H1, H2. by subst.
  - by apply shorthand_runs_iff.
  - by apply symbol_runs_iff.
  - done.
Qed.

Lemma extractors_deterministic_witness :
  (stdout_text (stdout (shorthand_main (rt := Demo.runtime) Demo.arrow_markup))
   = stdout_text [lit "['arrow.r', '->'],"]
   /\ result (shorthand_main (rt := Demo.runtime) Demo.arrow_markup) = Returned tt)
  /\ (stdout_text (stdout (symbol_main (rt := Demo.runtime) Demo.equiv_markup))
      = stdout_text [lit "    ['equiv', 'equal'],"]
      /\ result (symbol_main (rt := Demo.runtime) Demo.equiv_markup) = Returned tt).
Proof.
  split.
  - apply (proj1 (extractors_deterministic (rt := Demo.runtime)
                    Demo.arrow_markup Demo.arrow_markup eq_refl)
             (shorthand_main (rt := Demo.runtime) Demo.arrow_markup)
             ([lit "['arrow.r', '->'],"], Returned tt)).
    + apply shorthand_runs_iff. reflexivity.
    + apply shorthand_runs_iff. by vm_compute.
  - apply (proj1 (proj2 (extractors_deterministic (rt := Demo.runtime)
                           Demo.equiv_markup Demo.equiv_markup eq_refl))
             (symbol_main (rt := Demo.runtime) Demo.equiv_markup)
             ([lit "    ['equiv', 'equal'],"], Returned tt)).
    + apply symbol_runs_iff. reflexivity.
    + apply symbol_runs_iff. by vm_compute.
Defined.

(** * Further properties of the two scripts *)

(** ** The shorthand extractor *)

Lemma Forall2_elem_of_r {A B} (R : A -> B -> Prop) l k y :
  Forall2 R l k -> y ∈ k -> exists x, x ∈ l /\ R x y.
Proof.
  induction 1 as [|a b l k Hab _ IH]; [by intros ?%elem_of_nil|].
  intros [->|Hy]%elem_of_cons.
  - exists a. split; [left|done].
  - destruct (IH Hy) as (x & Hx & HR). exists x. split; [by right|done].
Qed.

Lemma shorthand_prints_inv {rt : PyRuntime} li line :
  shorthand_prints li line ->
  exists id raw shorthand,
    tag_attrs li !! lit "id" = Some id
    /\ tag_attrs li !! lit "data-math-shorthand" = Some raw
    /\ html_unescape raw = Some shorthand
    /\ line = lit "['" ++ drop 7 id ++ lit "', '" ++ shorthand ++ lit "'],".
Proof.
  unfold shorthand_prints. rewrite shorthand_body_eq.
  destruct (tag_attrs li !! lit "id") as [id|]; [|done].
  destruct (tag_attrs li !! lit "data-math-shorthand") as [raw|]; [|done].
  destruct (html_unescape raw) as [shorthand|] eqn:E; [|done].
  intros [= <-]. by exists id, raw, shorthand.
Qed.

(** A reference too long for [int] ends the run with [ValueError]: the
    line of the item is not printed, and the item after it, which has no
    [id], is not reached. *)
Example shorthand_long_reference :
  shorthand_run (rt := Demo.runtime) Demo.long_reference_page
  = ([lit "['arrow.r', '->'],"], Raised ValueError).
Proof. by vm_compute. Qed.

(** X1. Shorthand extractor: every line on standard output, also of a run
    that fails later, is [['] + the [id] of a list item of the second grid
    without its first seven characters + [', '] + its unescaped
    [data-math-shorthand] + ['],]; no other line is ever printed. *)
Theorem shorthand_line_shape {rt : PyRuntime} (soup : node) (line : str) :
  line ∈ stdout (shorthand_run soup) ->
  exists ul li id raw shorthand,
    find_all (lit "ul") (Some (lit "symbol-grid")) soup !! 1 = Some ul
    /\ li ∈ find_all (lit "li") None ul
    /\ tag_attrs li !! lit "id" = Some id
    /\ tag_attrs li !! lit "data-math-shorthand" = Some raw
    /\ html_unescape raw = Some shorthand
    /\ line = lit "['" ++ drop 7 id ++ lit "', '" ++ shorthand ++ lit "'],".
Proof.
  destruct (find_all (lit "ul") (Some (lit "symbol-grid")) soup !! 1) as [ul|] eqn:Hul.
  - rewrite (shorthand_run_loop soup ul Hul).
    destruct (shorthand_loop_cases (find_all (lit "li") None ul))
      as [(_ & out & -> & Hout)
         |(pre & bad & post & e & out & Hl & -> & Hout & _)]; simpl; intros Hline.
    + destruct (Forall2_elem_of_r _ _ _ _ Hout Hline) as (li & Hli & Hp).
      destruct (shorthand_prints_inv li line Hp) as (id & raw & sh & ? & ? & ? & ?).
      by exists ul, li, id, raw, sh.
    + destruct (Forall2_elem_of_r _ _ _ _ Hout Hline) as (li & Hli & Hp).
      destruct (shorthand_prints_inv li line Hp) as (id & raw & sh & ? & ? & ? & ?).
      exists ul, li, id, raw, sh. rewrite Hl. repeat split; try done.
      apply elem_of_app. by left.
  - rewrite (shorthand_run_no_grid soup Hul). by intros ?%elem_of_nil.
Qed.

Lemma shorthand_line_shape_witness :
  exists ul li id raw shorthand,
    find_all (lit "ul") (Some (lit "symbol-grid")) Demo.broken_arrow_page !! 1 = Some ul
    /\ li ∈ find_all (lit "li") None ul
    /\ tag_attrs li !! lit "id" = Some id
    /\ tag_attrs li !! lit "data-math-shorthand" = Some raw
    /\ html_unescape (rt := Demo.runtime) raw = Some shorthand
    /\ lit "['arrow.r', '->'],"
       = lit "['" ++ drop 7 id ++ lit "', '" ++ shorthand ++ lit "'],".
Proof.
  apply (shorthand_line_shape (rt := Demo.runtime) Demo.broken_arrow_page).
  vm_compute. left.
Defined.

(** X2. Shorthand extractor: the run returns exactly when the page has
    a second symbol-grid list and every list item of it has an [id] and a
    [data-math-shorthand] on which [html.unescape] returns; it then
    prints as many lines as there are list items. *)
Theorem shorthand_returns_iff {rt : PyRuntime} (soup : node) :
  (result (shorthand_run soup) = Returned tt <->
   exists ul,
     find_all (lit "ul") (Some (lit "symbol-grid")) soup !! 1 = Some ul
     /\ Forall (fun li => is_Some (tag_attrs li !! lit "id")
                          /\ exists raw,
                               tag_attrs li !! lit "data-math-shorthand" = Some raw
                               /\ is_Some (html_unescape raw))
          (find_all (lit "li") None ul))
  /\ (forall ul,
        find_all (lit "ul") (Some (lit "symbol-grid")) soup !! 1 = Some ul ->
        result (shorthand_run soup) = Returned tt ->
        length (stdout (shorthand_run soup)) = length (find_all (lit "li") None ul)).
Proof.
  split; [split|].
  - intros Hret.
    destruct (find_all (lit "ul") (Some (lit "symbol-grid")) soup !! 1) as [ul|] eqn:Hul;
      [|by rewrite (shorthand_run_no_grid soup Hul) in Hret].
    exists ul. split; [done|]. rewrite (shorthand_run_loop soup ul Hul) in Hret.
    destruct (shorthand_loop_cases (find_all (lit "li") None ul))
      as [(Hall & _)|(pre & bad & post & e & out & _ & E & _)];
      [|by rewrite E in Hret].
    eapply Forall_impl; [exact Hall|]. intros li Hli.
    apply shorthand_prints_result in Hli as [line Hp].
    destruct (shorthand_prints_inv li line Hp) as (id & raw & sh & -> & -> & Hsh & _).
    split; [by eexists|]. exists raw. by rewrite Hsh.
  - intros (ul & Hul & Hall). rewrite (shorthand_run_loop soup ul Hul).
    rewrite for_each_returned; [done|].
    eapply Forall_impl; [exact Hall|]. intros li [[id Hid] (raw & Hraw & [sh Hsh])].
    by rewrite shorthand_body_eq, Hid, Hraw, Hsh.
  - intros ul Hul. rewrite (shorthand_run_loop soup ul Hul).
    destruct (shorthand_loop_cases (find_all (lit "li") None ul))
      as [(_ & out & -> & Hout)|(pre & bad & post & e & out & _ & -> & _)]; [|done].
    intros _. simpl. symmetry. by eapply Forall2_length.
Qed.

Lemma shorthand_returns_iff_witness :
  result (shorthand_run (rt := Demo.runtime) (Demo.arrow_page (lit "->"))) = Returned tt
  /\ length (stdout (shorthand_run (rt := Demo.runtime) (Demo.arrow_page (lit "->")))) = 1.
Proof.
  destruct (shorthand_returns_iff (rt := Demo.runtime) (Demo.arrow_page (lit "->")))
    as [Hiff Hlen].
  assert (result (shorthand_run (rt := Demo.runtime) (Demo.arrow_page (lit "->")))
          = Returned tt) as Hret.
  { apply Hiff. exists (Demo.symbol_grid [Demo.arrow_item (lit "->")]).
    split; [by vm_compute|].
    constructor; [|constructor]. split; [eexists; by vm_compute|].
    exists (lit "->"). split; [by vm_compute|]. eexists. by vm_compute. }
  split; [exact Hret|].
  apply (Hlen (Demo.symbol_grid [Demo.arrow_item (lit "->")]));
    [by vm_compute|exact Hret].
Defined.

(** X3. Shorthand extractor: the run depends on the page only through
    the [id] and [data-math-shorthand] of the list items of the second
    grid, in their order: two pages that agree on these print the same
    lines and end alike, whatever else they hold (the first grid, other
    attributes, the content of the items). *)
Theorem shorthand_depends_on_two_attributes {rt : PyRuntime} (soup soup' ul ul' : node) :
  find_all (lit "ul") (Some (lit "symbol-grid")) soup !! 1 = Some ul ->
  find_all (lit "ul") (Some (lit "symbol-grid")) soup' !! 1 = Some ul' ->
  Forall2 (fun a b =>
             tag_attrs a !! lit "id" = tag_attrs b !! lit "id"
             /\ tag_attrs a !! lit "data-math-shorthand"
                = tag_attrs b !! lit "data-math-shorthand")
    (find_all (lit "li") None ul) (find_all (lit "li") None ul') ->
  shorthand_run soup = shorthand_run soup'.
Proof.
  intros Hul Hul' Hl.
  rewrite (shorthand_run_loop soup ul Hul), (shorthand_run_loop soup' ul' Hul').
  induction Hl as [|a b la lb [Hid Hsh] _ IH]; [done|].
  rewrite !for_each_cons, IH, !shorthand_body_eq, Hid, Hsh. done.
Qed.

Lemma shorthand_depends_on_two_attributes_witness :
  shorthand_run (rt := Demo.runtime) (Demo.arrow_page (lit "->"))
  = shorthand_run (rt := Demo.runtime) Demo.plain_arrow_page.
Proof.
  apply (shorthand_depends_on_two_attributes (rt := Demo.runtime)
           (Demo.arrow_page (lit "->")) Demo.plain_arrow_page
           (Demo.symbol_grid [Demo.arrow_item (lit "->")])
           (Demo.symbol_grid [Demo.titled_arrow_item])).
  - by vm_compute.
  - by vm_compute.
  - constructor; [|constructor]. split; by vm_compute.
Defined.

(** ** [html.unescape] as the shorthand loop calls it *)

Section UnescapeFacts.
Context {rt : PyRuntime}.

Lemma charref_sub_plain s : 38%N ∉ s -> charref_sub 0 s = Some s.
Proof.
  induction s as [|c s IH]; [done|]. intros [Hc Hs]%not_elem_of_cons. simpl.
  destruct (N.eqb_spec c 38); [done|]. by rewrite IH.
Qed.

Lemma html_unescape_sub s : html_unescape s = charref_sub 0 s.
Proof.
  unfold html_unescape. case_bool_decide; [done|]. by rewrite charref_sub_plain.
Qed.

Lemma charref_sub_app_plain a b :
  38%N ∉ a -> charref_sub 0 (a ++ b) = (fun r => a ++ r) <$> charref_sub 0 b.
Proof.
  induction a as [|c a IH]; [intros _; simpl; by destruct (charref_sub 0 b)|].
  intros [Hc Ha]%not_elem_of_cons. simpl.
  destruct (N.eqb_spec c 38); [done|]. rewrite IH by done.
  by destruct (charref_sub 0 b).
Qed.

Lemma charref_sub_skip a b : charref_sub (length a) (a ++ b) = charref_sub 0 b.
Proof. induction a as [|c a IH]; [done|]. exact IH. Qed.

Lemma charref_sub_match g rest t :
  charref_match t = Some g -> t = g ++ rest ->
  charref_sub 0 (38%N :: t)
  = r ← replace_charref g; rest' ← charref_sub 0 rest; Some (r ++ rest').
Proof.
  intros Hm ->. cbn [charref_sub]. rewrite N.eqb_refl, Hm.
  by rewrite charref_sub_skip.
Qed.

Lemma take_while_app p a c b :
  Forall (fun x => p x = true) a -> p c = false -> take_while p (a ++ c :: b) = a.
Proof.
  induction 1 as [|x a Hx _ IH]; intros Hc; simpl.
  - by rewrite Hc.
  - by rewrite Hx, IH.
Qed.

Lemma run_then_semicolon_app p bound a b :
  a <> [] -> Forall (fun x => p x = true) a -> p 59%N = false ->
  match bound with Some n => length a <= n | None => True end ->
  run_then_semicolon p bound (a ++ 59%N :: b) = Some (a ++ [59%N]).
Proof.
  intros Ha Hp H59 Hb. unfold run_then_semicolon.
  rewrite take_while_app by done.
  assert (match bound with Some n => take n a | None => a end = a) as ->.
  { destruct bound as [n|]; [by apply take_ge|done]. }
  rewrite drop_app_length. by destruct a.
Qed.

Lemma charref_match_name c t :
  c <> 35%N ->
  charref_match (c :: t) = run_then_semicolon is_name_char (Some 32) (c :: t).
Proof.
  intros Hc. unfold charref_match. destruct c as [|p]; [done|].
  do 6 (try destruct p as [p|p|]); done.
Qed.

Lemma replace_charref_name c t :
  c <> 35%N ->
  replace_charref (c :: t) =
  match html5 (c :: t) with
  | Some r => Some r
  | None =>
      match longest_name (c :: t) (length (c :: t) - 1) with
      | Some r => Some r
      | None => Some (38%N :: c :: t)
      end
  end.
Proof.
  intros Hc. unfold replace_charref. destruct c as [|p]; [done|].
  do 6 (try destruct p as [p|p|]); done.
Qed.

Lemma name_char_not_number_sign c : is_name_char c = true -> c <> 35%N.
Proof. intros Hc ->. by vm_compute in Hc. Qed.

Lemma digit_not_x c : is_digit c = true -> c ∉ [120; 88]%N.
Proof.
  unfold is_digit. intros [H1 H2]%andb_prop. apply N.leb_le in H1, H2.
  intros [->|[->|[]%elem_of_nil]%elem_of_cons]%elem_of_cons; lia.
Qed.

Lemma rstrip_semicolon_digits d :
  Forall (fun x => is_digit x = true) d -> rstrip_semicolon (d ++ [59%N]) = d.
Proof.
  induction 1 as [|x d Hx _ IH]; [done|]. simpl. rewrite IH.
  destruct d as [|y d]; [|done].
  destruct (N.eqb_spec x 59) as [->|]; [by vm_compute in Hx|done].
Qed.

(** [int] refuses a run of decimal digits exactly above the limit. *)
Lemma int_decimal_None digits :
  int_decimal digits = None <->
  640 < length digits /\ 0 < int_max_str_digits /\ int_max_str_digits < length digits.
Proof.
  unfold int_decimal.
  destruct (Nat.ltb_spec 640 (length digits)), (Nat.ltb_spec 0 int_max_str_digits),
    (Nat.ltb_spec int_max_str_digits (length digits)); simpl;
    split; try done; lia.
Qed.

(** A decimal reference after plain text, by what [int] says of its
    digits. *)
Lemma html_unescape_decimal before digits after :
  38%N ∉ before -> digits <> [] -> Forall (fun c => is_digit c = true) digits ->
  html_unescape (before ++ 38%N :: 35%N :: digits ++ 59%N :: after)
  = num ← int_decimal digits;
    r ← html_unescape after;
    Some (before ++ numeric_charref num ++ r).
Proof.
  intros Hb Hne Hd.
  rewrite !html_unescape_sub, charref_sub_app_plain by done.
  rewrite (charref_sub_match (35%N :: digits ++ [59%N]) after).
  - assert (replace_charref (35%N :: digits ++ [59%N])
            = numeric_charref <$> int_decimal digits) as ->.
    { unfold replace_charref. destruct digits as [|x d]; [done|]. cbn [app].
      rewrite bool_decide_eq_false_2
        by (apply digit_not_x; by apply Forall_cons in Hd as [? _]).
      change (x :: d ++ [59%N]) with ((x :: d) ++ [59%N]).
      by rewrite rstrip_semicolon_digits. }
    destruct (int_decimal digits) as [num|]; [|done]. simpl.
    by destruct (charref_sub 0 after).
  - unfold charref_match.
    by rewrite (run_then_semicolon_app is_digit None digits).
  - cbn [app]. by rewrite <- app_assoc.
Qed.
End UnescapeFacts.

(** X4. [html.unescape], as line 27 of the shorthand script calls it: the
    text before the first ['&'] is kept as it is; a reference [&name;]
    whose [name;] is an entry of the table is replaced by that entry; and
    the scan goes on after the reference, so the replacement is never
    decoded a second time (the call raises exactly when it raises on the
    text after the reference). *)
Theorem html_unescape_named_reference {rt : PyRuntime} (before name after repl : str) :
  38%N ∉ before ->
  name <> [] ->
  Forall (fun c => is_name_char c = true) name ->
  length name <= 32 ->
  html5 (name ++ [59%N]) = Some repl ->
  html_unescape (before ++ 38%N :: name ++ 59%N :: after)
  = (fun rest => before ++ repl ++ rest) <$> html_unescape after.
Proof.
  intros Hb Hne Hname Hlen Hrepl.
  rewrite !html_unescape_sub, charref_sub_app_plain by done.
  destruct name as [|c name']; [done|]. clear Hne.
  assert (c <> 35%N) as Hc.
  { apply name_char_not_number_sign. by apply Forall_cons in Hname as [? _]. }
  rewrite (charref_sub_match ((c :: name') ++ [59%N]) after).
  - cbn [app]. rewrite replace_charref_name by done.
    change (c :: name' ++ [59%N]) with ((c :: name') ++ [59%N]). rewrite Hrepl.
    simpl. by destruct (charref_sub 0 after).
  - cbn [app]. rewrite charref_match_name by done.
    apply (run_then_semicolon_app is_name_char (Some 32) (c :: name')); done.
  - by rewrite <- app_assoc.
Qed.

Lemma html_unescape_named_reference_witness :
  html_unescape (rt := Demo.runtime) (lit "<-&gt; &amp;lt;")
  = (fun rest => lit "<-" ++ lit ">" ++ rest)
      <$> html_unescape (rt := Demo.runtime) (lit " &amp;lt;").
Proof.
  apply (html_unescape_named_reference (rt := Demo.runtime)
           (lit "<-") (lit "gt") (lit " &amp;lt;") (lit ">")).
  - apply (bool_decide_unpack _). by vm_compute.
  - done.
  - repeat constructor.
  - vm_compute. lia.
  - by vm_compute.
Defined.

(** X5. [html.unescape], as line 27 of the shorthand script calls it: a
    decimal reference [&#digits;] whose digits [int] converts (at most
    640 of them, or no more than the limit of the runtime, or no limit)
    is replaced by what [_replace_charref] gives for their value (the
    entry of [_invalid_charrefs], U+FFFD out of range, nothing for an
    invalid code point, the character otherwise), and the scan goes on
    after the reference; with more digits than the limit the call raises
    [ValueError]. *)
Theorem html_unescape_decimal_reference {rt : PyRuntime} (before digits after : str) :
  38%N ∉ before ->
  digits <> [] ->
  Forall (fun c => is_digit c = true) digits ->
  (length digits <= 640 \/ int_max_str_digits = 0
   \/ length digits <= int_max_str_digits ->
   html_unescape (before ++ 38%N :: 35%N :: digits ++ 59%N :: after)
   = (fun rest => before ++ numeric_charref (int_digits 10 digits) ++ rest)
       <$> html_unescape after)
  /\ (640 < length digits -> 0 < int_max_str_digits ->
      int_max_str_digits < length digits ->
      html_unescape (before ++ 38%N :: 35%N :: digits ++ 59%N :: after) = None).
Proof.
  intros Hb Hne Hd. rewrite html_unescape_decimal by done. split.
  - intros Hok. destruct (int_decimal digits) as [num|] eqn:E.
    + unfold int_decimal in E. destruct (_ && _); [done|]. injection E as <-.
      simpl. by destruct (html_unescape after).
    + apply int_decimal_None in E. lia.
  - intros H1 H2 H3.
    by rewrite (proj2 (int_decimal_None digits) (conj H1 (conj H2 H3))).
Qed.

Lemma html_unescape_decimal_reference_witness :
  html_unescape (rt := Demo.runtime) (lit "x &#8594; y")
  = (fun rest => lit "x " ++ [8594%N] ++ rest)
      <$> html_unescape (rt := Demo.runtime) (lit " y")
  /\ html_unescape (rt := Demo.runtime) Demo.long_reference = None.
Proof.
  split.
  - apply (proj1 (html_unescape_decimal_reference (rt := Demo.runtime)
                    (lit "x ") (lit "8594") (lit " y")
                    ltac:(apply (bool_decide_unpack _); by vm_compute)
                    ltac:(done) ltac:(repeat constructor))).
    left. vm_compute. lia.
  - apply (proj2 (html_unescape_decimal_reference (rt := Demo.runtime)
                    [] (replicate 4301 49%N) []
                    ltac:(apply not_elem_of_nil)
                    ltac:(done) ltac:(by apply Forall_replicate))).
    + rewrite length_replicate. lia.
    + simpl. lia.
    + rewrite length_replicate. simpl. lia.
Defined.

(** ** The symbol extractor *)

Section SymbolMore.
Context {rt : PyRuntime}.

(** A name carried by an item is a key of the dictionary after the loop. *)
Lemma symbol_map_present l m li k :
  li ∈ l -> tag_get li (lit "data-latex-name") = Some k ->
  k ∈ (foldl symbol_step m l).*1.
Proof.
  revert m. induction l as [|x l IH]; intros m; [by intros ?%elem_of_nil|].
  intros [->|Hli]%elem_of_cons Hk; cbn [foldl]; [|by apply IH].
  assert (k ∈ (symbol_step m x).*1) as Hin.
  { rewrite symbol_step_eq, Hk. case_decide; [done|].
    rewrite fmap_app. apply elem_of_app. right. left. }
  apply dict_lookup_is_Some in Hin as [v Hv].
  apply dict_lookup_is_Some. exists v. by apply symbol_map_keeps.
Qed.

Lemma symbol_map_keys l k :
  k ∈ (foldl symbol_step [] l).*1 <->
  k ∈ omap (fun li => tag_get li (lit "data-latex-name")) l.
Proof.
  rewrite list_elem_of_omap. split.
  - intros ([k' v] & -> & Hin)%list_elem_of_fmap.
    apply symbol_map_origin in Hin as [[]%elem_of_nil|(li & Hli & Hk & _)].
    by exists li.
  - intros (li & Hli & Hk). by eapply symbol_map_present.
Qed.

(** The keys of the dictionary are added at its end. *)
Lemma symbol_step_keys m li :
  (symbol_step m li).*1 = m.*1
  \/ exists k, tag_get li (lit "data-latex-name") = Some k
               /\ (k ∉ m.*1) /\ (symbol_step m li).*1 = m.*1 ++ [k].
Proof.
  rewrite symbol_step_eq. destruct (tag_get li _) as [k|]; [|by left].
  case_decide; [by left|]. right. exists k. by rewrite fmap_app.
Qed.

Lemma symbol_map_prefix l m : exists new, (foldl symbol_step m l).*1 = m.*1 ++ new.
Proof.
  revert m. induction l as [|li l IH]; intros m.
  - exists []. by rewrite app_nil_r.
  - cbn [foldl]. destruct (IH (symbol_step m li)) as [new ->].
    destruct (symbol_step_keys m li) as [->|(k & _ & _ & ->)]; [by exists new|].
    exists (k :: new). by rewrite <- app_assoc.
Qed.

Lemma table_of_length m : length (table_of m) = length m.
Proof.
  unfold table_of, dict_keys.
  by rewrite length_fmap, (sorted_perm str_lower (m.*1)), length_fmap.
Qed.
End SymbolMore.

(** X6. Symbol extractor: a run either returns or leaves standard output
    empty; and it raises nothing but [AttributeError] (exactly when the
    page has no symbol-grid list), [KeyError] on [id] or on
    [data-codepoint], or [ValueError]: the lookup [symbol_map[key]] of
    line 32 never fails. *)
Theorem symbol_all_or_nothing {rt : PyRuntime} (soup : node) :
  match result (symbol_run soup) with
  | Returned _ => True
  | Raised e =>
      stdout (symbol_run soup) = []
      /\ (e = AttributeError <-> find (lit "ul") (Some (lit "symbol-grid")) soup = None)
      /\ (e = AttributeError \/ e = KeyError (lit "id")
          \/ e = KeyError (lit "data-codepoint") \/ e = ValueError)
  end.
Proof.
  rewrite symbol_run_eq, symbol_table_eq.
  destruct (find _ _ soup) as [ul|]; [|simpl; split; [done|split; [done|by left]]].
  destruct (first_error _) as [e|] eqn:E; simpl; [|done].
  apply first_error_Some in E as (pre & bad & post & _ & _ & He).
  apply item_error_kind in He. split; [done|]. split.
  - split; [|done]. intros ->. by destruct He as [?|[?|?]].
  - by right.
Qed.

(** X7. Symbol extractor: the run returns exactly when the page has a
    symbol-grid list and every list item of the first one, named or not,
    has an [id] and a [data-codepoint] that [int] accepts. *)
Theorem symbol_returns_iff {rt : PyRuntime} (soup : node) :
  result (symbol_run soup) = Returned tt <->
  exists ul,
    find (lit "ul") (Some (lit "symbol-grid")) soup = Some ul
    /\ Forall (fun li => exists id c n,
                 tag_attrs li !! lit "id" = Some id
                 /\ tag_attrs li !! lit "data-codepoint" = Some c
                 /\ int_of_str c = Some n)
         (find_all (lit "li") None ul).
Proof.
  split.
  - intros (ul & Hul & Hall & _)%symbol_run_returned. exists ul. split; [done|].
    eapply Forall_impl; [exact Hall|]. intros li. by rewrite item_error_None.
  - intros (ul & Hul & Hall). rewrite symbol_run_eq, symbol_table_eq, Hul.
    assert (first_error (find_all (lit "li") None ul) = None) as ->; [|done].
    apply first_error_None. eapply Forall_impl; [exact Hall|].
    intros li. by rewrite item_error_None.
Qed.

Lemma symbol_returns_iff_witness :
  result (symbol_run (rt := Demo.runtime) (Demo.greek_page [Demo.plus_item]))
  = Returned tt
  /\ exists ul,
       find (lit "ul") (Some (lit "symbol-grid")) (Demo.equiv_page true) = Some ul
       /\ Forall (fun li => exists id c n,
                    tag_attrs li !! lit "id" = Some id
                    /\ tag_attrs li !! lit "data-codepoint" = Some c
                    /\ Demo.decimal_int c = Some n)
            (find_all (lit "li") None ul).
Proof.
  split.
  - apply (proj2 (symbol_returns_iff (rt := Demo.runtime)
                    (Demo.greek_page [Demo.plus_item]))).
    eexists. split; [by vm_compute|].
    repeat constructor; do 3 eexists; repeat split; by vm_compute.
  - apply (proj1 (symbol_returns_iff (rt := Demo.runtime) (Demo.equiv_page true))).
    by vm_compute.
Defined.

(** X8. Symbol extractor: a run that returns prints as many lines as
    there are distinct [data-latex-name] values among the list items. *)
Theorem symbol_line_count {rt : PyRuntime} (soup ul : node) :
  find (lit "ul") (Some (lit "symbol-grid")) soup = Some ul ->
  result (symbol_run soup) = Returned tt ->
  length (stdout (symbol_run soup))
  = length (remove_dups
              (omap (fun li => tag_get li (lit "data-latex-name"))
                 (find_all (lit "li") None ul))).
Proof.
  intros Hul Hret.
  destruct (symbol_run_returned soup Hret) as (ul' & Hul' & _ & Ht).
  rewrite Hul in Hul'. injection Hul' as <-.
  rewrite symbol_run_eq, Ht. simpl.
  rewrite length_fmap, table_of_length, <- (length_fmap fst).
  apply Permutation_length, NoDup_Permutation.
  - apply symbol_map_NoDup. constructor.
  - apply NoDup_remove_dups.
  - intros k. by rewrite elem_of_remove_dups, symbol_map_keys.
Qed.

Lemma symbol_line_count_witness :
  length (stdout (symbol_run (rt := Demo.runtime) (Demo.equiv_page true))) = 1
  /\ length (stdout (symbol_run (rt := Demo.runtime)
                       (Demo.greek_page [Demo.plus_item]))) = 3.
Proof.
  split.
  - apply (symbol_line_count (rt := Demo.runtime) (Demo.equiv_page true)
             (Demo.symbol_grid (Demo.equiv_items true))); by vm_compute.
  - apply (symbol_line_count (rt := Demo.runtime) (Demo.greek_page [Demo.plus_item])
             (Demo.symbol_grid
                [Demo.symbol_item (lit "symbol-beta") (lit "\beta") (lit "946");
                 Demo.plus_item;
                 Demo.symbol_item (lit "symbol-alpha") (lit "\alpha") (lit "945");
                 Demo.symbol_item (lit "symbol-Alpha") (lit "\Alpha") (lit "913")]));
      by vm_compute.
Defined.

(** X9. Symbol extractor: a list item whose [data-latex-name] is already
    carried by an earlier list item changes nothing: the page without it
    gives the same run (the item passing its reads of [id] and
    [data-codepoint]). *)
Theorem symbol_later_duplicate_dropped {rt : PyRuntime}
    (soup soup' ul ul' : node) (pre post : list node) (first li : node)
    (latex id c : str) (n : Z) :
  find (lit "ul") (Some (lit "symbol-grid")) soup = Some ul ->
  find (lit "ul") (Some (lit "symbol-grid")) soup' = Some ul' ->
  find_all (lit "li") None ul = pre ++ li :: post ->
  find_all (lit "li") None ul' = pre ++ post ->
  first ∈ pre ->
  tag_get first (lit "data-latex-name") = Some latex ->
  tag_get li (lit "data-latex-name") = Some latex ->
  tag_attrs li !! lit "id" = Some id ->
  tag_attrs li !! lit "data-codepoint" = Some c ->
  int_of_str c = Some n ->
  symbol_run soup' = symbol_run soup.
Proof.
  intros Hul Hul' Hl Hl' Hfirst Hk Hli Hid Hc Hn.
  assert (item_error li = None) as Hok by (apply item_error_None; eauto 6).
  rewrite !symbol_run_eq, !symbol_table_eq, Hul, Hul', Hl, Hl'.
  rewrite !first_error_app, first_error_cons, Hok.
  rewrite !foldl_app. cbn [foldl].
  assert (symbol_step (foldl symbol_step [] pre) li = foldl symbol_step [] pre) as ->;
    [|done].
  rewrite symbol_step_eq, Hli. rewrite decide_True; [done|].
  by eapply symbol_map_present.
Qed.

Lemma symbol_later_duplicate_dropped_witness :
  symbol_run (rt := Demo.runtime) Demo.equal_page
  = symbol_run (rt := Demo.runtime) (Demo.equiv_page true).
Proof.
  apply (symbol_later_duplicate_dropped (rt := Demo.runtime)
           (Demo.equiv_page true) Demo.equal_page
           (Demo.symbol_grid (Demo.equiv_items true))
           (Demo.symbol_grid
              [Demo.symbol_item (lit "symbol-equal") (lit "\equiv") (lit "8801")])
           [Demo.symbol_item (lit "symbol-equal") (lit "\equiv") (lit "8801")] []
           (Demo.symbol_item (lit "symbol-equal") (lit "\equiv") (lit "8801"))
           (Demo.symbol_item (lit "symbol-equiv.triple") (lit "\equiv") (lit "8803"))
           (lit "\equiv") (lit "symbol-equiv.triple") (lit "8803") 8803%Z);
    try by vm_compute.
  left.
Defined.

(** ** The order of the printed table *)

Lemma lookup_lt_split {A} (l : list A) i j x y :
  i < j -> l !! i = Some x -> l !! j = Some y ->
  exists l1 l2 l3, l = l1 ++ x :: l2 ++ y :: l3.
Proof.
  intros Hij Hi Hj.
  apply list_elem_of_split_length in Hi as (l1 & r & -> & ->).
  rewrite lookup_app_r in Hj by lia.
  destruct (j - length l1) as [|k] eqn:E; [lia|]. simpl in Hj.
  apply list_elem_of_split_length in Hj as (l2 & l3 & -> & _).
  by exists l1, l2, l3.
Qed.

Lemma sublist_before {A} (l : list A) f1 f2 f3 x y :
  f1 ++ x :: f2 ++ y :: f3 `sublist_of` l ->
  exists l1 l2 l3, l = l1 ++ x :: l2 ++ y :: l3.
Proof.
  intros (k1 & k2 & -> & _ & H2)%sublist_app_l.
  apply sublist_cons_l in H2 as (k21 & k22 & -> & H3).
  apply sublist_app_l in H3 as (a & b & -> & _ & H4).
  apply sublist_cons_l in H4 as (b1 & b2 & -> & _).
  exists (k1 ++ k21), (a ++ b1), b2. by rewrite <- !app_assoc.
Qed.

(** In a list without repetition that starts with [p], what comes
    before an element of [p] is in [p]. *)
Lemma before_prefix {A} (p new xs ys zs : list A) a b :
  NoDup (p ++ new) -> p ++ new = xs ++ a :: ys ++ b :: zs -> b ∈ p -> a ∈ p.
Proof.
  intros Hnd E Hb. apply list_elem_of_lookup in Hb as [i Hi].
  pose proof (lookup_lt_Some _ _ _ Hi) as Hlt.
  assert ((p ++ new) !! i = Some b) as Hi' by (by rewrite lookup_app_l).
  assert ((p ++ new) !! (length xs + S (length ys)) = Some b) as Hj.
  { rewrite E, lookup_app_r by lia.
    replace (length xs + S (length ys) - length xs) with (S (length ys)) by lia.
    simpl. by apply list_lookup_middle. }
  pose proof (NoDup_lookup _ _ _ _ Hnd Hi' Hj) as ->.
  assert ((p ++ new) !! length xs = Some a) as Ha
    by (rewrite E; by apply list_lookup_middle).
  rewrite lookup_app_l in Ha by lia. by apply list_elem_of_lookup_2 in Ha.
Qed.

(** The keys of the dictionary stand in the order in which the names
    first occur on the page. *)
Lemma symbol_map_order {rt : PyRuntime} l m xs ys zs a b :
  NoDup m.*1 -> b ∉ m.*1 ->
  (foldl symbol_step m l).*1 = xs ++ a :: ys ++ b :: zs ->
  a ∈ m.*1
  \/ exists pre li post,
       l = pre ++ li :: post
       /\ tag_get li (lit "data-latex-name") = Some a
       /\ Forall (fun li' => tag_get li' (lit "data-latex-name") <> Some b) pre.
Proof.
  revert m. induction l as [|li0 l IH]; intros m Hnd Hb E.
  - simpl in E. destruct Hb. rewrite E.
    apply elem_of_app. right. right. apply elem_of_app. right. left.
  - cbn [foldl] in E.
    assert (NoDup (symbol_step m li0).*1) as Hnd1.
    { destruct (symbol_step_keys m li0) as [->|(k & _ & Hk & ->)]; [done|].
      apply NoDup_app. split; [done|]. split; [|apply NoDup_singleton].
      intros x Hx [->|[]%elem_of_nil]%elem_of_cons. done. }
    destruct (decide (tag_get li0 (lit "data-latex-name") = Some b)) as [Hli0|Hli0].
    + left. destruct (symbol_map_prefix l (symbol_step m li0)) as [new Hnew].
      assert (NoDup ((symbol_step m li0).*1 ++ new)) as Hall.
      { rewrite <- Hnew. by apply symbol_map_NoDup. }
      assert (b ∈ (symbol_step m li0).*1) as Hb1.
      { rewrite symbol_step_eq, Hli0. rewrite decide_False by done.
        rewrite fmap_app. apply elem_of_app. right. left. }
      rewrite Hnew in E.
      pose proof (before_prefix _ _ _ _ _ _ _ Hall E Hb1) as Ha.
      assert (a <> b) as Hab.
      { intros ->. rewrite E in Hall. apply NoDup_app in Hall as (_ & _ & Hall).
        apply NoDup_cons in Hall as [Hall _]. destruct Hall.
        apply elem_of_app. right. left. }
      destruct (symbol_step_keys m li0) as [Hk|(k & Hk & _ & Hk')].
      * by rewrite Hk in Ha.
      * rewrite Hk' in Ha. apply elem_of_app in Ha as [?|Ha]; [done|].
        apply list_elem_of_singleton in Ha. congruence.
    + assert (b ∉ (symbol_step m li0).*1) as Hb1.
      { destruct (symbol_step_keys m li0) as [->|(k & Hk & _ & ->)]; [done|].
        apply not_elem_of_app. split; [done|].
        intros ->%list_elem_of_singleton. congruence. }
      destruct (IH _ Hnd1 Hb1 E) as [Ha|(pre & li & post & -> & Hli & Hpre)].
      * destruct (symbol_step_keys m li0) as [Hk|(k & Hk & _ & Hk')].
        -- left. by rewrite Hk in Ha.
        -- rewrite Hk' in Ha. apply elem_of_app in Ha as [?|Ha]; [by left|].
           apply list_elem_of_singleton in Ha as ->.
           right. exists [], li0, l. by repeat split.
      * right. exists (li0 :: pre), li, post. repeat split; [done|by constructor].
Qed.

(** X10. Symbol extractor: among the entries whose names are equal up to
    case, the page order decides: if the line of [a] is printed before
    the line of [b] and the two names have the same lower-case form, then
    [a] occurs on the page before any occurrence of [b]. *)
Theorem symbol_case_ties_in_document_order {rt : PyRuntime}
    (soup ul : node) (entries : list (str * str)) (i j : nat) (a b : str * str) :
  find (lit "ul") (Some (lit "symbol-grid")) soup = Some ul ->
  result (symbol_table soup) = Returned entries ->
  i < j -> entries !! i = Some a -> entries !! j = Some b ->
  str_lower a.1 = str_lower b.1 ->
  exists pre li post,
    find_all (lit "li") None ul = pre ++ li :: post
    /\ tag_get li (lit "data-latex-name") = Some a.1
    /\ Forall (fun li' => tag_get li' (lit "data-latex-name") <> Some b.1) pre.
Proof.
  intros Hul Ht Hij Hi Hj Hlow.
  rewrite symbol_table_eq, Hul in Ht.
  destruct (first_error _); [done|]. injection Ht as <-.
  set (m := foldl symbol_step [] (find_all (lit "li") None ul)) in *.
  assert ((table_of m).*1 !! i = Some a.1) as Hi' by (by rewrite list_lookup_fmap, Hi).
  assert ((table_of m).*1 !! j = Some b.1) as Hj' by (by rewrite list_lookup_fmap, Hj).
  rewrite table_of_keys in Hi', Hj'.
  destruct (lookup_lt_split _ i j _ _ Hij Hi' Hj') as (s1 & s2 & s3 & Hs).
  pose proof (sorted_stable str_lower (str_lower a.1) (dict_keys m)) as Hst.
  rewrite Hs in Hst.
  rewrite filter_app, filter_cons_True, filter_app, filter_cons_True in Hst by done.
  pose proof (sublist_filter (fun z => str_lower z = str_lower a.1) (dict_keys m)) as Hsub.
  rewrite <- Hst in Hsub.
  apply sublist_before in Hsub as (k1 & k2 & k3 & Hk).
  destruct (symbol_map_order (find_all (lit "li") None ul) [] k1 k2 k3 a.1 b.1)
    as [[]%elem_of_nil|Hres]; try done.
  - constructor.
  - apply not_elem_of_nil.
Qed.

Lemma symbol_case_ties_in_document_order_witness :
  exists pre li post,
    [Demo.symbol_item (lit "symbol-beta") (lit "\beta") (lit "946");
     Demo.symbol_item (lit "symbol-alpha") (lit "\alpha") (lit "945");
     Demo.symbol_item (lit "symbol-Alpha") (lit "\Alpha") (lit "913")]
    = pre ++ li :: post
    /\ tag_get li (lit "data-latex-name") = Some (lit "\alpha")
    /\ Forall (fun li' => tag_get li' (lit "data-latex-name") <> Some (lit "\Alpha")) pre.
Proof.
  apply (symbol_case_ties_in_document_order (rt := Demo.runtime) (Demo.greek_page [])
           (Demo.symbol_grid
              [Demo.symbol_item (lit "symbol-beta") (lit "\beta") (lit "946");
               Demo.symbol_item (lit "symbol-alpha") (lit "\alpha") (lit "945");
               Demo.symbol_item (lit "symbol-Alpha") (lit "\Alpha") (lit "913")])
           [(lit "\alpha", lit "alpha"); (lit "\Alpha", lit "Alpha");
            (lit "\beta", lit "beta")]
           0 1 (lit "\alpha", lit "alpha") (lit "\Alpha", lit "Alpha"));
    by vm_compute.
Defined.

Lemma filter_unique_perm {A} (P : A -> Prop) `{!forall x, Decision (P x)} (l l' : list A) :
  NoDup l -> l ≡ₚ l' ->
  (forall x y, x ∈ l -> y ∈ l -> P x -> P y -> x = y) ->
  filter P l = filter P l'.
Proof.
  intros Hnd Hperm Huniq.
  assert (filter P l ≡ₚ filter P l') as Hf by (by rewrite Hperm).
  destruct (filter P l) as [|x [|y fl]] eqn:E.
  - by apply Permutation_nil_l in Hf.
  - by apply Permutation_singleton_l in Hf.
  - exfalso.
    assert (x ∈ filter P l) as Hx by (rewrite E; left).
    assert (y ∈ filter P l) as Hy by (rewrite E; right; left).
    apply list_elem_of_filter in Hx as [Px Hx], Hy as [Py Hy].
    assert (NoDup (filter P l)) as Hnd' by (by apply NoDup_filter).
    rewrite E in Hnd'. apply NoDup_cons in Hnd' as [Hxy _].
    destruct Hxy. rewrite (Huniq x y Hx Hy Px Py). left.
Qed.

Section TableFacts.
Context {rt : PyRuntime}.

(** Two dictionaries with the same entries give the same table, when no
    two keys are equal up to case. *)
Lemma table_of_perm_eq (m m' : dict) :
  NoDup m.*1 -> NoDup m'.*1 -> m ≡ₚ m' ->
  (forall k1 k2, k1 ∈ m.*1 -> k2 ∈ m.*1 -> str_lower k1 = str_lower k2 -> k1 = k2) ->
  table_of m = table_of m'.
Proof.
  intros Hnd Hnd' Hperm Hinj. unfold table_of, dict_keys.
  assert (sorted str_lower m.*1 = sorted str_lower m'.*1) as <-.
  { apply (stable_sorted_unique str_lower); [apply sorted_sorted..|].
    intros k. rewrite !sorted_stable.
    apply filter_unique_perm; [done|by rewrite Hperm|].
    intros x y Hx Hy Px Py. apply Hinj; congruence. }
  apply list_fmap_ext. intros i k Hk%list_elem_of_lookup_2.
  rewrite sorted_perm in Hk. apply dict_lookup_is_Some in Hk as [v Hv].
  rewrite Hv. apply dict_lookup_elem_of in Hv. rewrite Hperm in Hv.
  by rewrite (dict_lookup_NoDup m' k v).
Qed.

(** A dictionary in the order of [sorted] is its own table. *)
Lemma table_of_sorted_dict (m : dict) :
  NoDup m.*1 -> StronglySorted (key_le str_lower) m.*1 -> table_of m = m.
Proof.
  intros Hnd Hs. unfold table_of, dict_keys.
  assert (sorted str_lower m.*1 = m.*1) as ->.
  { symmetry. apply (stable_sorted_unique str_lower); [done|apply sorted_sorted|].
    intros k. by rewrite sorted_stable. }
  rewrite <- list_fmap_compose. rewrite <- (list_fmap_id m) at 2.
  apply list_fmap_ext. intros i [k v] Hkv%list_elem_of_lookup_2. simpl.
  by rewrite (dict_lookup_NoDup m k v).
Qed.
End TableFacts.

(** X11. Symbol extractor: the order of the list items on the page does
    not matter when every name has one identifier and no two names are
    equal up to case: two pages whose list items are a rearrangement of
    each other print the same lines, and one run returns exactly when the
    other does. *)
Theorem symbol_order_independent {rt : PyRuntime} (soup soup' ul ul' : node) :
  find (lit "ul") (Some (lit "symbol-grid")) soup = Some ul ->
  find (lit "ul") (Some (lit "symbol-grid")) soup' = Some ul' ->
  find_all (lit "li") None ul ≡ₚ find_all (lit "li") None ul' ->
  (forall li1 li2 k,
     li1 ∈ find_all (lit "li") None ul -> li2 ∈ find_all (lit "li") None ul ->
     tag_get li1 (lit "data-latex-name") = Some k ->
     tag_get li2 (lit "data-latex-name") = Some k ->
     tag_attrs li1 !! lit "id" = tag_attrs li2 !! lit "id") ->
  (forall li1 li2 k1 k2,
     li1 ∈ find_all (lit "li") None ul -> li2 ∈ find_all (lit "li") None ul ->
     tag_get li1 (lit "data-latex-name") = Some k1 ->
     tag_get li2 (lit "data-latex-name") = Some k2 ->
     str_lower k1 = str_lower k2 -> k1 = k2) ->
  stdout (symbol_run soup) = stdout (symbol_run soup')
  /\ (result (symbol_run soup) = Returned tt <-> result (symbol_run soup') = Returned tt).
Proof.
  intros Hul Hul' Hperm Hid Hinj.
  rewrite !symbol_run_eq, !symbol_table_eq, Hul, Hul'.
  set (l := find_all (lit "li") None ul) in *.
  set (l' := find_all (lit "li") None ul') in *.
  destruct (first_error l) as [e|] eqn:E, (first_error l') as [e'|] eqn:E'; simpl.
  - done.
  - apply first_error_None in E'. rewrite <- Hperm in E'.
    apply first_error_None in E'. congruence.
  - apply first_error_None in E. rewrite Hperm in E.
    apply first_error_None in E. congruence.
  - split; [|done]. f_equal.
    assert (forall la lb : list node, la ≡ₚ lb ->
              (forall li1 li2 k, li1 ∈ la -> li2 ∈ la ->
                 tag_get li1 (lit "data-latex-name") = Some k ->
                 tag_get li2 (lit "data-latex-name") = Some k ->
                 tag_attrs li1 !! lit "id" = tag_attrs li2 !! lit "id") ->
              forall kv, kv ∈ foldl symbol_step [] la -> kv ∈ foldl symbol_step [] lb)
      as Hsub.
    { intros la lb Hp Hsame [k v] Hkv.
      destruct (symbol_map_origin la [] k v Hkv) as [[]%elem_of_nil|(li & Hli & Hk & ->)].
      assert (k ∈ (foldl symbol_step [] lb).*1) as Hin.
      { apply (symbol_map_present lb [] li k); [by rewrite <- Hp|done]. }
      apply dict_lookup_is_Some in Hin as [v' Hv'].
      apply dict_lookup_elem_of in Hv'.
      destruct (symbol_map_origin lb [] k v' Hv')
        as [[]%elem_of_nil|(li' & Hli' & Hk' & ->)].
      rewrite <- Hp in Hli'. unfold typst_of.
      by rewrite (Hsame li li' k Hli Hli' Hk Hk'). }
    apply table_of_perm_eq.
    + apply symbol_map_NoDup. constructor.
    + apply symbol_map_NoDup. constructor.
    + apply NoDup_Permutation.
      * apply (NoDup_fmap_1 fst), symbol_map_NoDup. constructor.
      * apply (NoDup_fmap_1 fst), symbol_map_NoDup. constructor.
      * intros kv. split; [by apply Hsub|].
        apply Hsub; [done|]. intros li1 li2 k H1 H2.
        rewrite <- Hperm in H1, H2. by apply Hid.
    + intros k1 k2 (li1 & H1 & Hk1)%symbol_map_keys%list_elem_of_omap
        (li2 & H2 & Hk2)%symbol_map_keys%list_elem_of_omap.
      by apply (Hinj li1 li2).
Qed.

Lemma symbol_order_independent_witness :
  stdout (symbol_run (rt := Demo.runtime) Demo.beta_alpha_page)
  = stdout (symbol_run (rt := Demo.runtime) Demo.alpha_beta_page)
  /\ (result (symbol_run (rt := Demo.runtime) Demo.beta_alpha_page) = Returned tt <->
      result (symbol_run (rt := Demo.runtime) Demo.alpha_beta_page) = Returned tt).
Proof.
  apply (symbol_order_independent (rt := Demo.runtime)
           Demo.beta_alpha_page Demo.alpha_beta_page
           (Demo.symbol_grid
              [Demo.symbol_item (lit "symbol-beta") (lit "\beta") (lit "946");
               Demo.symbol_item (lit "symbol-alpha") (lit "\alpha") (lit "945")])
           (Demo.symbol_grid
              [Demo.symbol_item (lit "symbol-alpha") (lit "\alpha") (lit "945");
               Demo.symbol_item (lit "symbol-beta") (lit "\beta") (lit "946")])).
  - by vm_compute.
  - by vm_compute.
  - apply perm_swap.
  - intros li1 li2 k
      [->|[->|[]%elem_of_nil]%elem_of_cons]%elem_of_cons
      [->|[->|[]%elem_of_nil]%elem_of_cons]%elem_of_cons H1 H2;
      vm_compute in H1, H2; congruence.
  - intros li1 li2 k1 k2
      [->|[->|[]%elem_of_nil]%elem_of_cons]%elem_of_cons
      [->|[->|[]%elem_of_nil]%elem_of_cons]%elem_of_cons H1 H2 Hlow;
      vm_compute in H1, H2; injection H1 as <-; injection H2 as <-;
      first [reflexivity | by vm_compute in Hlow].
Defined.

Lemma str_leb_cons c x y : str_leb (c :: x) (c :: y) = str_leb x y.
Proof. unfold str_leb. simpl. by rewrite N.ltb_irrefl, N.eqb_refl. Qed.

(** X12. Symbol extractor: when every [data-latex-name] of the page is
    a backslash followed by ASCII characters, the names as printed,
    without the backslash, are in case-insensitive order too.  Of
    [str.lower] this uses only that it lowers an ASCII string character
    by character. *)
Theorem symbol_printed_names_sorted {rt : PyRuntime}
    (lower_char : N -> N) (soup : node) (entries : list (str * str)) :
  (forall s, Forall (fun c => (c < 128)%N) s -> str_lower s = lower_char <$> s) ->
  (forall ul li k,
     find (lit "ul") (Some (lit "symbol-grid")) soup = Some ul ->
     li ∈ find_all (lit "li") None ul ->
     tag_get li (lit "data-latex-name") = Some k ->
     exists k', k = 92%N :: k' /\ Forall (fun c => (c < 128)%N) k') ->
  result (symbol_table soup) = Returned entries ->
  forall (i j : nat) (a b : str * str),
    i < j -> entries !! i = Some a -> entries !! j = Some b ->
    str_leb (str_lower (drop 1 a.1)) (str_lower (drop 1 b.1)) = true.
Proof.
  intros Hlower Hslash Ht i j [ka va] [kb vb] Hij Hi Hj.
  assert (forall k v, (k, v) ∈ entries ->
            exists k', k = 92%N :: k' /\ Forall (fun c => (c < 128)%N) k') as Hkeys.
  { intros k v Hin.
    destruct (symbol_table_origin soup entries k v Ht Hin)
      as (ul & li & id & Hul & Hli & Hk & _).
    by apply (Hslash ul li). }
  destruct (Hkeys ka va (list_elem_of_lookup_2 _ _ _ Hi)) as (ka' & -> & Ha).
  destruct (Hkeys kb vb (list_elem_of_lookup_2 _ _ _ Hj)) as (kb' & -> & Hb).
  assert (str_leb (str_lower (92%N :: ka')) (str_lower (92%N :: kb')) = true) as Hle.
  { rewrite symbol_table_eq in Ht.
    destruct (find _ _ soup) as [ul|]; [|done].
    destruct (first_error _); [done|]. injection Ht as <-.
    exact (StronglySorted_lookup_lt _ _ i j _ _ (table_of_sorted _) Hij Hi Hj). }
  rewrite !Hlower in Hle by (constructor; [reflexivity|done]).
  rewrite !fmap_cons, str_leb_cons in Hle.
  simpl. by rewrite !Hlower.
Qed.

Lemma symbol_printed_names_sorted_witness :
  str_leb (Demo.ascii_lower (lit "Alpha")) (Demo.ascii_lower (lit "beta")) = true.
Proof.
  apply (symbol_printed_names_sorted (rt := Demo.runtime)
           (fun c => if ((65 <=? c) && (c <=? 90))%N then (c + 32)%N else c)
           (Demo.greek_page [])
           [(lit "\alpha", lit "alpha"); (lit "\Alpha", lit "Alpha");
            (lit "\beta", lit "beta")]
           ltac:(reflexivity)
           ltac:(intros ul li k [= <-];
                 intros [->|[->|[->|[]%elem_of_nil]%elem_of_cons]%elem_of_cons]%elem_of_cons
                        [= <-]; eexists; (split; [reflexivity|]);
                 repeat constructor)
           ltac:(by vm_compute)
           1 2 (lit "\Alpha", lit "Alpha") (lit "\beta", lit "beta")
           ltac:(lia) ltac:(reflexivity) ltac:(reflexivity)).
Defined.

(** X13. The dictionary of the symbol script: after [d[k] = v], [d[k]]
    is [v] and every other key has the value it had; the keys keep their
    order, a new key going last; and the keys stay distinct. *)
Theorem dict_setitem_lookup (d : dict) (k v : str) :
  (forall k', dict_lookup (dict_setitem k v d) k'
              = if decide (k = k') then Some v else dict_lookup d k')
  /\ dict_keys (dict_setitem k v d)
     = (if decide (k ∈ dict_keys d) then dict_keys d else dict_keys d ++ [k])
  /\ (NoDup (dict_keys d) -> NoDup (dict_keys (dict_setitem k v d))).
Proof.
  assert (dict_keys (dict_setitem k v d)
          = if decide (k ∈ dict_keys d) then dict_keys d else dict_keys d ++ [k])
    as Hkeys.
  { unfold dict_keys. induction d as [|[k0 v0] d IH]; csimpl; [done|].
    case_bool_decide as E0.
    - subst. rewrite decide_True by left. done.
    - csimpl. rewrite IH. destruct (decide (k ∈ d.*1)) as [Hin|Hin].
      + rewrite decide_True by (by right). done.
      + rewrite decide_False; [done|].
        apply not_elem_of_cons. split; [congruence|exact Hin]. }
  split; [|split; [exact Hkeys|]].
  - intros k'. clear Hkeys. induction d as [|[k0 v0] d IH]; simpl.
    + repeat case_bool_decide; repeat case_decide; congruence.
    + case_bool_decide as E0; simpl.
      * subst. repeat case_bool_decide; repeat case_decide; congruence.
      * rewrite IH. repeat case_bool_decide; repeat case_decide; congruence.
  - intros Hnd. rewrite Hkeys. case_decide; [done|].
    apply NoDup_app. split; [done|]. split; [|apply NoDup_singleton].
    intros x Hx ->%list_elem_of_singleton. done.
Qed.

Lemma dict_setitem_lookup_witness :
  NoDup (dict_keys (dict_setitem (lit "\beta") (lit "beta")
                      [(lit "\alpha", lit "alpha")])).
Proof.
  apply (dict_setitem_lookup [(lit "\alpha", lit "alpha")] (lit "\beta") (lit "beta")).
  apply (bool_decide_unpack _). by vm_compute.
Defined.

(** X14. The table of line 32: for a dictionary (an association list
    with distinct keys) the comprehension never raises and returns the
    items of the dictionary, rearranged; when the keys are already in the
    order of [sorted], it returns them as they are. *)
Theorem sorted_symbol_map_items {rt : PyRuntime} (symbol_map : dict) :
  NoDup (dict_keys symbol_map) ->
  exists table,
    sorted_symbol_map symbol_map = ([], Returned table)
    /\ table ≡ₚ symbol_map
    /\ (StronglySorted (key_le str_lower) (dict_keys symbol_map) ->
        table = symbol_map).
Proof.
  intros Hnd. exists (table_of symbol_map). split; [apply sorted_symbol_map_eq|].
  split; [by apply table_of_perm|]. intros Hs. by apply table_of_sorted_dict.
Qed.

Lemma sorted_symbol_map_items_witness :
  sorted_symbol_map (rt := Demo.runtime)
    [(lit "\alpha", lit "alpha"); (lit "\beta", lit "beta")]
  = ([], Returned [(lit "\alpha", lit "alpha"); (lit "\beta", lit "beta")]).
Proof.
  destruct (sorted_symbol_map_items (rt := Demo.runtime)
              [(lit "\alpha", lit "alpha"); (lit "\beta", lit "beta")])
    as (table & Hrun & _ & Hsame).
  - apply (bool_decide_unpack _). by vm_compute.
  - rewrite Hrun, Hsame; [done|]. repeat constructor.
Defined.

(** ** Lists that grow, and lists inside lists *)

Lemma for_each_app {A} (body : A -> Py unit) l1 l2 :
  for_each (l1 ++ l2) body =
  match for_each l1 body with
  | (o, Returned _) => (o ++ stdout (for_each l2 body), result (for_each l2 body))
  | (o, Raised e) => (o, Raised e)
  end.
Proof.
  induction l1 as [|x l1 IH].
  - simpl. by destruct (for_each l2 body).
  - cbn [app]. rewrite !for_each_cons, IH.
    destruct (body x) as [o [[]|e]]; [|done].
    destruct (for_each l1 body) as [o1 [[]|e1]]; simpl; [|done].
    by rewrite app_assoc.
Qed.

(** X15. Shorthand extractor: lines are printed as the list is walked,
    so list items added at the end of the second grid only add lines at
    the end: the output for the shorter list is the beginning of the
    output for the longer one, whether the runs return or raise. *)
Theorem shorthand_output_grows {rt : PyRuntime} (soup soup' ul ul' : node) (more : list node) :
  find_all (lit "ul") (Some (lit "symbol-grid")) soup !! 1 = Some ul ->
  find_all (lit "ul") (Some (lit "symbol-grid")) soup' !! 1 = Some ul' ->
  find_all (lit "li") None ul' = find_all (lit "li") None ul ++ more ->
  stdout (shorthand_run soup) `prefix_of` stdout (shorthand_run soup')
  /\ (forall e, result (shorthand_run soup) = Raised e ->
        shorthand_run soup' = shorthand_run soup).
Proof.
  intros Hul Hul' Hl.
  rewrite (shorthand_run_loop soup ul Hul), (shorthand_run_loop soup' ul' Hul'), Hl.
  rewrite for_each_app.
  destruct (for_each (find_all (lit "li") None ul) shorthand_body) as [o [[]|e]]; simpl.
  - split; [by eexists|done].
  - split; [by exists []; rewrite app_nil_r|done].
Qed.

Lemma shorthand_output_grows_witness :
  stdout (shorthand_run (rt := Demo.runtime) (Demo.arrow_page (lit "->")))
  `prefix_of` stdout (shorthand_run (rt := Demo.runtime) Demo.broken_arrow_page).
Proof.
  apply (shorthand_output_grows (rt := Demo.runtime)
           (Demo.arrow_page (lit "->")) Demo.broken_arrow_page
           (Demo.symbol_grid [Demo.arrow_item (lit "->")])
           (Demo.symbol_grid
              [Demo.arrow_item (lit "->"); Demo.li [(lit "id", lit "symbol-dots.h")]])
           [Demo.li [(lit "id", lit "symbol-dots.h")]]); by vm_compute.
Defined.

(** Induction on a page, with the property at hand for the children. *)
Lemma node_children_ind (P : node -> Prop) :
  (forall s, P (Text s)) ->
  (forall name cls attrs children, Forall P children -> P (Tag name cls attrs children)) ->
  forall n, P n.
Proof.
  intros HText HTag. fix IH 1. intros [name cls attrs children|s]; [|apply HText].
  apply HTag. induction children as [|c children IHc]; constructor; [apply IH|apply IHc].
Qed.

Lemma descendants_Tag name cls attrs children d :
  d ∈ descendants (Tag name cls attrs children) <->
  exists c, c ∈ children /\ (d = c \/ d ∈ descendants c).
Proof.
  cbn [descendants]. rewrite list_elem_of_In, in_flat_map. split.
  - intros (c & Hc & Hd). exists c. rewrite list_elem_of_In. split; [done|].
    destruct Hd as [<-|Hd]; [by left|right; by apply list_elem_of_In].
  - intros (c & Hc & Hd). exists c. rewrite <- list_elem_of_In. split; [done|].
    destruct Hd as [->|Hd]; [by left|right; by apply list_elem_of_In].
Qed.

Lemma descendants_trans n c d :
  c ∈ descendants n -> d ∈ descendants c -> d ∈ descendants n.
Proof.
  induction n as [s|name cls attrs children IH] using node_children_ind;
    [by intros ?%elem_of_nil|].
  intros (x & Hx & Hc)%descendants_Tag Hd. apply descendants_Tag.
  exists x. split; [done|]. right. destruct Hc as [->|Hc]; [done|].
  rewrite Forall_forall in IH. by apply (IH x).
Qed.

Lemma find_all_spec name class_ n x :
  x ∈ find_all name class_ n <-> x ∈ descendants n /\ tag_matches name class_ x = true.
Proof. unfold find_all. rewrite !list_elem_of_In. apply List.filter_In. Qed.

(** X16. [find_all] on the parsed page, as both scripts call it: what it
    finds below an element it also finds from every element above, and an
    element that matches is found from every element above it.  So the
    list items of a list nested in the grid are walked too, and a grid is
    found at any depth of the page. *)
Theorem find_all_nested (name : str) (class_ : option str) (n c x : node) :
  c ∈ descendants n ->
  (x ∈ find_all name class_ c -> x ∈ find_all name class_ n)
  /\ (tag_matches name class_ c = true -> c ∈ find_all name class_ n).
Proof.
  intros Hc. rewrite !find_all_spec. split.
  - intros [Hx Hm]. split; [by eapply descendants_trans|done].
  - done.
Qed.

Lemma find_all_nested_witness :
  Demo.arrow_item (lit "->") ∈ find_all (lit "li") None Demo.nested_grid
  /\ Demo.nested_list ∈ find_all (lit "ul") None Demo.nested_grid.
Proof.
  assert (Demo.nested_list ∈ descendants Demo.nested_grid) as Hc
    by (vm_compute; right; left).
  split.
  - apply (proj1 (find_all_nested (lit "li") None Demo.nested_grid Demo.nested_list
                    (Demo.arrow_item (lit "->")) Hc)).
    vm_compute. left.
  - apply (proj2 (find_all_nested (lit "ul") None Demo.nested_grid Demo.nested_list
                    (Demo.arrow_item (lit "->")) Hc)).
    by vm_compute.
Defined.
